(** * Seedr proxy service: the upload job lifecycle of [server.py]

    A shallow embedding of the request handlers and of the background
    upload worker.  The filesystem is a finite map from paths to file
    contents; handlers are computations in a state-and-exception monad
    over a [world]; everything the process does not control (the remote
    provider, [uuid4], failing file writes) is read from an [env]. *)

From Stdlib Require Import ZArith Ascii String.
From stdpp Require Import strings pretty gmap.

Set Warnings "-register-all".

Local Open Scope Z_scope.
Local Open Scope string_scope.
Local Open Scope list_scope.

(** ** Values exchanged as JSON

    [json] is the type of the Python objects that [json.load] builds and
    that [json.dump] and [JSONResponse] accept: [None], booleans,
    integers, strings, lists and dictionaries with string keys (kept in
    insertion order, as Python dictionaries are).  Floating-point numbers
    are left out. *)

Inductive json : Type :=
| JNull
| JBool (b : bool)
| JInt (n : Z)
| JStr (s : string)
| JList (l : list json)
| JDict (d : list (string * json)).

Abbreviation dict := (list (string * json)).

(** [d.get(k)]: the first binding of [k]. *)
Fixpoint dict_get (k : string) (d : dict) : option json :=
  match d with
  | [] => None
  | (k', v) :: d' => if String.eqb k k' then Some v else dict_get k d'
  end.

(** [k in d] *)
Definition dict_has (k : string) (d : dict) : bool :=
  match dict_get k d with Some _ => true | None => false end.

(** Python truth value of an object, as tested by [if not status]. *)
Definition truthy (v : json) : bool :=
  match v with
  | JNull => false
  | JBool b => b
  | JInt n => negb (Z.eqb n 0)
  | JStr s => negb (String.eqb s EmptyString)
  | JList l => match l with [] => false | _ => true end
  | JDict d => match d with [] => false | _ => true end
  end.

(** ** Exceptions, events and the world *)

(** An instance of [Exception], with the text [str(e)] gives. *)
Inductive exn : Type := Exception (text : string).

Definition exn_str (e : exn) : string := let 'Exception t := e in t.

Inductive outcome (A : Type) : Type :=
| Returns (a : A)
| Raises (e : exn).
Arguments Returns {A} a.
Arguments Raises {A} e.

Definition returned {A} (r : outcome A) : bool :=
  match r with Returns _ => true | Raises _ => false end.

(** The operations of the [Seedr] client the handlers call. *)
Inductive remote_call : Type :=
| Upload_file (path : string)
| Add_torrent (magnet : string)
| List_contents
| Get_file (file_id : string)
| Delete_file (item_id : string)
| Delete_folder (item_id : string).

(** What an observer of one run sees, in order.  [EvStatusWrite] carries
    whether the call of [write_status] returned, [EvRemote] what the
    provider answered, [EvRemove] whether [os.remove] returned. *)
Inductive event : Type :=
| EvUuid (file_id : string)
| EvStage (tmp_path : string) (ok : bool)
| EvAddTask (file_id tmp_path : string)
| EvStatusWrite (file_id : string) (status_data : dict) (ok : bool)
| EvRemote (call : remote_call) (res : outcome json)
| EvLogError (msg : string)
| EvRemove (path : string) (ok : bool).

(** The filesystem maps a path, as the string the program passes to
    [open], to the content of the file.  Two spellings of one file
    ([j1.json] and [./j1.json]) are two keys: statements about distinct
    files are made for paths whose spelling decides the file. *)
Record world : Type := World {
  files : gmap string string;        (* path -> content *)
  tasks : list (string * string);    (* BackgroundTasks: (file_id, tmp_path) *)
  log : list event                   (* oldest first *)
}.

Definition set_files (f : gmap string string -> gmap string string) (w : world) : world :=
  World (f (files w)) (tasks w) (log w).
Definition add_task_to (t : string * string) (w : world) : world :=
  World (files w) (tasks w ++ [t]) (log w).
Definition add_log (ev : event) (w : world) : world :=
  World (files w) (tasks w) (log w ++ [ev]).

(** A file write that raises: [partial] is what the file holds afterwards
    when it was already created or truncated ([None]: [open] itself
    raised and the file is as it was). *)
Record fault : Type := Fault { raised : exn; partial : option string }.

(** Everything outside the process.  Each oracle sees the world at the
    moment of the call, log included, so that an answer may change from
    one call to the next. *)
Record env : Type := Env {
  uuid4 : world -> string;
  stage_fault : world -> string -> option fault;
  write_fault : world -> string -> string -> option fault;
  remote : world -> remote_call -> outcome json;
  remove_fault : world -> string -> option exn
}.

(** ** The monad of handlers: state and exceptions *)

Definition M (A : Type) : Type := world -> outcome A * world.

Definition ret {A} (a : A) : M A := fun w => (Returns a, w).
Definition raise {A} (e : exn) : M A := fun w => (Raises e, w).
Definition bind {A B} (m : M A) (k : A -> M B) : M B :=
  fun w => match m w with
           | (Returns a, w') => k a w'
           | (Raises e, w') => (Raises e, w')
           end.

Declare Scope handler_scope.
Delimit Scope handler_scope with handler.
Notation "x <- m ;; k" := (bind m (fun x => k))
  (at level 100, m at next level, right associativity) : handler_scope.
Notation "m ;; k" := (bind m (fun _ => k))
  (at level 100, right associativity) : handler_scope.

(** [try: body / except Exception as e: handler e] *)
Definition try_except {A} (body : M A) (handler : exn -> M A) : M A :=
  fun w => match body w with
           | (Returns a, w') => (Returns a, w')
           | (Raises e, w') => handler e w'
           end.

(** [try: body / finally: cleanup]: the cleanup runs on both exits; an
    exception of the cleanup replaces the outcome of the body. *)
Definition try_finally {A} (body : M A) (cleanup : M unit) : M A :=
  fun w => match body w with
           | (r, w') => match cleanup w' with
                        | (Returns _, w'') => (r, w'')
                        | (Raises e, w'') => (Raises e, w'')
                        end
           end.

Definition emit (ev : event) : M unit := fun w => (Returns tt, add_log ev w).

(** Run [m] and record, after it, the event [mk ok] where [ok] tells
    whether [m] returned. *)
Definition logged {A} (mk : bool -> event) (m : M A) : M A :=
  fun w => match m w with (r, w') => (r, add_log (mk (returned r)) w') end.

(** ** Filesystem calls *)

(** [os.path.join(a, b)] on POSIX. *)
Definition ends_with_slash (a : string) : bool :=
  match rev (list_ascii_of_string a) with
  | c :: _ => Ascii.eqb c "/"
  | [] => false
  end.

Definition os_path_join (a b : string) : string :=
  match b with
  | String c _ =>
      if Ascii.eqb c "/" then b
      else if String.eqb a EmptyString || ends_with_slash a then a +:+ b
      else a +:+ "/" +:+ b
  | EmptyString =>
      if String.eqb a EmptyString || ends_with_slash a then a else a +:+ "/"
  end.

Definition os_path_exists (path : string) : M bool :=
  fun w => (Returns (bool_decide (is_Some (files w !! path))), w).

(** [os.remove(path)], where [flt] tells whether the removal of an
    existing file fails; a failed removal leaves the file. *)
Definition remove_file (flt : option exn) (path : string) : M unit :=
  fun w => match files w !! path with
           | Some _ =>
               match flt with
               | None => (Returns tt, add_log (EvRemove path true) (set_files (delete path) w))
               | Some e => (Raises e, add_log (EvRemove path false) w)
               end
           | None => (Raises (Exception "FileNotFoundError"), w)
           end.

(** [with open(path, mode) as f: <write content to f>], where [flt] tells
    whether and how the write fails. *)
Definition write_file (flt : option fault) (path content : string) : M unit :=
  fun w => match flt with
           | None => (Returns tt, set_files (insert path content) w)
           | Some (Fault e None) => (Raises e, w)
           | Some (Fault e (Some p)) => (Raises e, set_files (insert path p) w)
           end.

Definition read_file (path : string) : M string :=
  fun w => match files w !! path with
           | Some content => (Returns content, w)
           | None => (Raises (Exception "FileNotFoundError"), w)
           end.

(** The events a run of [m] adds to the log of [w], and the world and
    the outcome it ends with. *)
Definition new_events {A} (m : M A) (w : world) : list event :=
  drop (length (log w)) (log (m w).2).
Definition final {A} (m : M A) (w : world) : world := (m w).2.
Definition result {A} (m : M A) (w : world) : outcome A := (m w).1.

(** The records that reached the Status Store: the calls of
    [write_status] that returned, with their key. *)
Fixpoint status_writes (l : list event) : list (string * dict) :=
  match l with
  | [] => []
  | EvStatusWrite file_id status_data true :: l' =>
      (file_id, status_data) :: status_writes l'
  | _ :: l' => status_writes l'
  end.

(** ** The service *)

Record JSONResponse : Type := Response { content : json; status_code : Z }.

(** [UploadFile]: the filename hint (an [Optional[str]]) and the bytes. *)
Record UploadFile : Type := Upload { filename : option string; file_bytes : string }.

(** How an f-string renders an [Optional[str]]. *)
Definition fmt_opt (o : option string) : string :=
  match o with Some s => s | None => "None" end.

Section Server.

(** [json.dump] and [json.load] on file contents; [None] is a
    [JSONDecodeError]. *)
Variable json_dumps : json -> string.
Variable json_loads : string -> option json.
Variable E : env.

Definition STATUS_DIR : string := "/tmp/upload_statuses".

Definition status_path (file_id : string) : string :=
  os_path_join STATUS_DIR (file_id +:+ ".json").

Definition seedr (call : remote_call) : M json :=
  fun w => let res := remote E w call in (res, add_log (EvRemote call res) w).

Definition logger_error (msg : string) : M unit := emit (EvLogError msg).

Definition os_remove (path : string) : M unit :=
  fun w => remove_file (remove_fault E w path) path w.

Definition write_status (file_id : string) (status_data : dict) : M unit :=
  logged (EvStatusWrite file_id status_data)
    (fun w =>
       let path := os_path_join STATUS_DIR (file_id +:+ ".json") in
       let text := json_dumps (JDict status_data) in
       write_file (write_fault E w path text) path text w).

(** Python's [None] for a missing file is [JNull]. *)
Definition read_status (file_id : string) : M json :=
  (let status_path := os_path_join STATUS_DIR (file_id +:+ ".json") in
   present <- os_path_exists status_path ;;
   if negb present then ret JNull
   else
     text <- read_file status_path ;;
     match json_loads text with
     | Some v => ret v
     | None => raise (Exception "JSONDecodeError")
     end)%handler.

Definition upload_to_seedr_in_background (file_id tmp_path : string) : M unit :=
  (try_finally
     (try_except
        (write_status file_id [("status", JStr "processing")] ;;
         result <- seedr (Upload_file tmp_path) ;;
         write_status file_id [("status", JStr "completed"); ("result", result)])
        (fun e =>
           logger_error ("Upload failed for file_id " +:+ file_id +:+ ": " +:+ exn_str e) ;;
           write_status file_id
             [("status", JStr "failed"); ("error", JStr "Upload process failed.")]))
     (present <- os_path_exists tmp_path ;;
      if present then os_remove tmp_path else ret tt))%handler.

(** The two parts of the worker: what runs under [try]/[except], and
    the [finally] block. *)
Definition worker_body (file_id tmp_path : string) : M unit :=
  (try_except
     (write_status file_id [("status", JStr "processing")] ;;
      result <- seedr (Upload_file tmp_path) ;;
      write_status file_id [("status", JStr "completed"); ("result", result)])
     (fun e =>
        logger_error ("Upload failed for file_id " +:+ file_id +:+ ": " +:+ exn_str e) ;;
        write_status file_id
          [("status", JStr "failed"); ("error", JStr "Upload process failed.")]))%handler.

Definition worker_cleanup (tmp_path : string) : M unit :=
  (present <- os_path_exists tmp_path ;;
   if present then os_remove tmp_path else ret tt)%handler.

Definition read_root : M json :=
  ret (JDict [("message", JStr "Seedr Proxy API is running.")]).

Definition new_uuid : M string :=
  fun w => let file_id := uuid4 E w in (Returns file_id, add_log (EvUuid file_id) w).

(** [with open(tmp_path, "wb") as buffer: shutil.copyfileobj(file.file, buffer)] *)
Definition stage (tmp_path bytes : string) : M unit :=
  logged (EvStage tmp_path)
    (fun w => write_file (stage_fault E w tmp_path) tmp_path bytes w).

Definition add_task (file_id tmp_path : string) : M unit :=
  fun w => (Returns tt, add_log (EvAddTask file_id tmp_path) (add_task_to (file_id, tmp_path) w)).

Definition upload_file (file : UploadFile) : M JSONResponse :=
  (file_id <- new_uuid ;;
   let tmp_path := "/tmp/" +:+ file_id +:+ "-" +:+ fmt_opt (filename file) in
   stage tmp_path (file_bytes file) ;;
   add_task file_id tmp_path ;;
   write_status file_id [("status", JStr "pending")] ;;
   ret (Response (JDict [("file_id", JStr file_id)]) 202))%handler.

Definition get_upload_status (file_id : string) : M JSONResponse :=
  (status <- read_status file_id ;;
   if negb (truthy status)
   then ret (Response (JDict [("error", JStr "File not found")]) 404)
   else ret (Response status 200))%handler.

Definition add_torrent (magnet : string) : M JSONResponse :=
  (result <- seedr (Add_torrent magnet) ;;
   ret (Response result 200))%handler.

Definition list_files : M JSONResponse :=
  (contents <- seedr List_contents ;;
   ret (Response contents 200))%handler.

Definition get_status (file_id : option string) : M JSONResponse :=
  (status <- match file_id with
             | Some (String c s) => seedr (Get_file (String c s))
             | _ => seedr List_contents
             end ;;
   ret (Response status 200))%handler.

Definition delete_item (item_id item_type : string) : M JSONResponse :=
  (if String.eqb item_type "file" then
     result <- seedr (Delete_file item_id) ;;
     ret (Response result 200)
   else if String.eqb item_type "folder" then
     result <- seedr (Delete_folder item_id) ;;
     ret (Response result 200)
   else
     ret (Response
            (JDict [("error", JStr "Invalid item_type. Must be 'file' or 'folder'.")])
            400))%handler.

(** The route [DELETE /items/{item_id}]: the query parameter
    [item_type] defaults to ["file"]. *)
Definition delete_item_route (item_id : string) (item_type : option string) : M JSONResponse :=
  delete_item item_id (default "file" item_type).

(** [@app.exception_handler(Exception)] *)
Definition generic_exception_handler (exc : exn) : M JSONResponse :=
  (logger_error ("An unhandled exception occurred: " +:+ exn_str exc) ;;
   ret (Response (JDict [("message", JStr "An internal server error occurred.")]) 500))%handler.

(** A request as the client sees it: what the handler returns, or the
    response of the exception handler.  The framework runs the
    [BackgroundTasks] of a request with the response its handler
    returns: the tasks a handler added before it raised are dropped. *)
Definition serve (handler : M JSONResponse) : M JSONResponse :=
  fun w => match handler w with
           | (Returns response, w') => (Returns response, w')
           | (Raises e, w') =>
               generic_exception_handler e (World (files w') (tasks w) (log w'))
           end.

(** The routes of the application. *)
Inductive request : Type :=
| GetRoot
| PostUpload (file : UploadFile)
| GetUploadStatus (file_id : string)
| PostAdd (magnet : string)
| GetList
| GetStatus (file_id : option string)
| DeleteItem (item_id : string) (item_type : option string).

Definition route (r : request) : M JSONResponse :=
  match r with
  | GetRoot => (body <- read_root ;; ret (Response body 200))%handler
  | PostUpload file => upload_file file
  | GetUploadStatus file_id => get_upload_status file_id
  | PostAdd magnet => add_torrent magnet
  | GetList => list_files
  | GetStatus file_id => get_status file_id
  | DeleteItem item_id item_type => delete_item_route item_id item_type
  end.

(** Run the oldest scheduled background task, if any. *)
Definition run_background_task : M unit :=
  fun w => match tasks w with
           | [] => (Returns tt, w)
           | (file_id, tmp_path) :: rest =>
               upload_to_seedr_in_background file_id tmp_path
                 (World (files w) rest (log w))
           end.

(** The process after start-up, and what it does next: it answers a
    request or runs a scheduled task. *)
Definition initial (w : world) : Prop := log w = [] /\ tasks w = [].

Inductive step : world -> world -> Prop :=
| step_request (r : request) (w : world) :
    step w (final (serve (route r)) w)
| step_task (w : world) :
    step w (final run_background_task w).

Inductive reachable : world -> Prop :=
| reachable_initial (w : world) : initial w -> reachable w
| reachable_step (w w' : world) : reachable w -> step w w' -> reachable w'.

End Server.

(** ** Job Records *)

Definition has_status (name : string) (d : dict) : bool :=
  match dict_get "status" d with
  | Some (JStr s) => String.eqb s name
  | _ => false
  end.

Definition processing_record : dict := [("status", JStr "processing")].
Definition completed_record (result : json) : dict :=
  [("status", JStr "completed"); ("result", result)].
Definition failed_record : dict :=
  [("status", JStr "failed"); ("error", JStr "Upload process failed.")].
Definition pending_record : dict := [("status", JStr "pending")].

Definition terminal (d : dict) : bool :=
  has_status "completed" d || has_status "failed" d.

(** The shape §3 of the specification gives a Job Record: [result] goes
    with [completed], [error] with [failed]. *)
Definition record_wf (d : dict) : Prop :=
  (dict_has "result" d = true <-> has_status "completed" d = true) /\
  (dict_has "error" d = true <-> has_status "failed" d = true) /\
  (has_status "pending" d = true \/ has_status "processing" d = true ->
   dict_has "result" d = false /\ dict_has "error" d = false).

(** The runs of the [try]/[except] part of the worker, as sequences of
    events: the upload returned and [completed] was written; the upload
    returned but writing [completed] raised; the upload raised; writing
    [processing] raised.  In the last three the handler logs the
    exception and writes [failed], which may raise in turn. *)
Definition upload_failed_msg (file_id : string) (e : exn) : string :=
  "Upload failed for file_id " +:+ file_id +:+ ": " +:+ exn_str e.

Inductive worker_trace (file_id tmp_path : string) : list event -> Prop :=
| trace_completed (payload : json) :
    worker_trace file_id tmp_path
      [EvStatusWrite file_id processing_record true;
       EvRemote (Upload_file tmp_path) (Returns payload);
       EvStatusWrite file_id (completed_record payload) true]
| trace_completed_unwritten (payload : json) (e : exn) (ok : bool) :
    worker_trace file_id tmp_path
      [EvStatusWrite file_id processing_record true;
       EvRemote (Upload_file tmp_path) (Returns payload);
       EvStatusWrite file_id (completed_record payload) false;
       EvLogError (upload_failed_msg file_id e);
       EvStatusWrite file_id failed_record ok]
| trace_upload_raised (e : exn) (ok : bool) :
    worker_trace file_id tmp_path
      [EvStatusWrite file_id processing_record true;
       EvRemote (Upload_file tmp_path) (Raises e);
       EvLogError (upload_failed_msg file_id e);
       EvStatusWrite file_id failed_record ok]
| trace_processing_unwritten (e : exn) (ok : bool) :
    worker_trace file_id tmp_path
      [EvStatusWrite file_id processing_record false;
       EvLogError (upload_failed_msg file_id e);
       EvStatusWrite file_id failed_record ok].

(** What the [finally] block of the worker adds to a run: nothing when
    the file is absent, else the removal, which returned or raised. *)
Inductive cleanup_tail (tmp_path : string) : list event -> Prop :=
| cleanup_absent : cleanup_tail tmp_path []
| cleanup_removed : cleanup_tail tmp_path [EvRemove tmp_path true]
| cleanup_raised : cleanup_tail tmp_path [EvRemove tmp_path false].

(** Every call of [write_status] of a log, returned or not. *)
Fixpoint status_calls (l : list event) : list (string * dict) :=
  match l with
  | [] => []
  | EvStatusWrite file_id status_data _ :: l' =>
      (file_id, status_data) :: status_calls l'
  | _ :: l' => status_calls l'
  end.

Definition all_writes_returned (l : list event) : bool :=
  forallb (fun ev => match ev with EvStatusWrite _ _ ok => ok | _ => true end) l.

(** The write sequence the specification describes for one worker:
    [processing], then exactly one terminal record, all under the key of
    the job. *)
Definition processing_then_terminal (file_id : string) (ws : list (string * dict)) : bool :=
  match ws with
  | [(k1, d1); (k2, d2)] =>
      String.eqb k1 file_id && String.eqb k2 file_id &&
      has_status "processing" d1 && terminal d2
  | _ => false
  end.

(** The index of the first event that satisfies [p]. *)
Fixpoint position (p : event -> bool) (l : list event) : option nat :=
  match l with
  | [] => None
  | ev :: l' => if p ev then Some O else S <$> position p l'
  end.

Definition is_add_task (ev : event) : bool :=
  match ev with EvAddTask _ _ => true | _ => false end.
Definition is_pending_write (ev : event) : bool :=
  match ev with EvStatusWrite _ d true => has_status "pending" d | _ => false end.

(** The order of §4.2: the [pending] record is written before the worker
    is enqueued. *)
Definition pending_written_before_enqueue (l : list event) : bool :=
  match position is_pending_write l, position is_add_task l with
  | Some i, Some j => Nat.ltb i j
  | _, _ => false
  end.

Definition not_found_response : JSONResponse :=
  Response (JDict [("error", JStr "File not found")]) 404.
Definition internal_error_response : JSONResponse :=
  Response (JDict [("message", JStr "An internal server error occurred.")]) 500.

(** Every record of the log has the shape of a Job Record. *)
Definition records_wf (l : list event) : Prop :=
  Forall (fun kd : string * dict => record_wf kd.2) (status_calls l).

(** The temporary path of an upload. *)
Definition tmp_path_of (file_id : string) (file : UploadFile) : string :=
  "/tmp/" +:+ file_id +:+ "-" +:+ fmt_opt (filename file).

(** A job id with a path separator in it; [str(uuid.uuid4())] has none. *)
Fixpoint has_slash (s : string) : bool :=
  match s with
  | String c s' => Ascii.eqb c "/" || has_slash s'
  | EmptyString => false
  end.

(** A Job Record carries one of the four statuses. *)
Definition job_record (d : dict) : bool :=
  has_status "pending" d || has_status "processing" d ||
  has_status "completed" d || has_status "failed" d.

(** A job id that [os.path.join] takes for an absolute path. *)
Definition absolute (s : string) : bool :=
  match s with
  | String c _ => Ascii.eqb c "/"
  | EmptyString => false
  end.

(** The last call of [write_status] of a log: its record and whether it
    returned. *)
Fixpoint last_write (l : list event) : option (dict * bool) :=
  match l with
  | [] => None
  | EvStatusWrite _ d ok :: l' =>
      match last_write l' with
      | Some x => Some x
      | None => Some (d, ok)
      end
  | _ :: l' => last_write l'
  end.

(** The job ids drawn by the dispatcher. *)
Fixpoint issued (l : list event) : list string :=
  match l with
  | [] => []
  | EvUuid file_id :: l' => file_id :: issued l'
  | _ :: l' => issued l'
  end.

(** Every record of the log is under a job id the dispatcher drew, and
    every queued task is for such an id and for the temporary path of an
    upload under that id. *)
Definition ids_issued (w : world) : Prop :=
  Forall (fun kd : string * dict => In kd.1 (issued (log w))) (status_calls (log w)) /\
  Forall (fun t : string * string =>
            In t.1 (issued (log w)) /\ exists file, t.2 = tmp_path_of t.1 file)
         (tasks w).

(** What one step adds: new events, records under ids drawn in the
    same step or under [key], and at most one new task, for an id drawn
    in the same step. *)
Definition step_adds (key : option string) (w w' : world) : Prop :=
  exists evs,
    log w' = log w ++ evs /\
    Forall (fun kd : string * dict => In kd.1 (issued evs) \/ Some kd.1 = key)
           (status_calls evs) /\
    (incl (tasks w') (tasks w) \/
     exists file_id file,
       tasks w' = tasks w ++ [(file_id, tmp_path_of file_id file)] /\
       In file_id (issued evs)).

(** The status codes of the handler of each route. *)
Definition route_codes (r : request) : list Z :=
  match r with
  | PostUpload _ => [202]
  | GetUploadStatus _ => [200; 404]
  | DeleteItem _ _ => [200; 400]
  | _ => [200]
  end.

Definition is_upload (r : request) : bool :=
  match r with PostUpload _ => true | _ => false end.

Definition unhandled_msg (e : exn) : string :=
  "An unhandled exception occurred: " +:+ exn_str e.

(** The provider call behind [GET /status]. *)
Definition get_status_call (file_id : option string) : remote_call :=
  match file_id with
  | Some (String c s) => Get_file (String c s)
  | _ => List_contents
  end.

(** ** A JSON codec to run the model on concrete files

    The handlers above take [json.dump] and [json.load] as parameters.
    [PyJson] is one instance, used for the examples: it prints as
    [json.dumps] does with its default separators, and reads the same
    syntax back.  It covers strings of printable ASCII characters. *)

Module PyJson.

Definition dquote : ascii := "034"%char.
Definition backslash : ascii := "092"%char.

Fixpoint escape (s : string) : string :=
  match s with
  | EmptyString => EmptyString
  | String c s' =>
      if Ascii.eqb c dquote || Ascii.eqb c backslash
      then String backslash (String c (escape s'))
      else String c (escape s')
  end.

Definition quote (s : string) : string :=
  String dquote (escape s +:+ String dquote EmptyString).

Fixpoint join (sep : string) (l : list string) : string :=
  match l with
  | [] => EmptyString
  | [x] => x
  | x :: l' => x +:+ sep +:+ join sep l'
  end.

Fixpoint dumps (v : json) : string :=
  match v with
  | JNull => "null"
  | JBool true => "true"
  | JBool false => "false"
  | JInt n => pretty n
  | JStr s => quote s
  | JList l => "[" +:+ join ", " (map dumps l) +:+ "]"
  | JDict d =>
      "{" +:+ join ", " (map (fun kv => quote kv.1 +:+ ": " +:+ dumps kv.2) d) +:+ "}"
  end.

Definition is_space (c : ascii) : bool :=
  Ascii.eqb c " " || Ascii.eqb c "010" || Ascii.eqb c "013" || Ascii.eqb c "009".

Fixpoint skip_ws (s : string) : string :=
  match s with
  | String c s' => if is_space c then skip_ws s' else s
  | EmptyString => s
  end.

Fixpoint strip_prefix (p s : string) : option string :=
  match p, s with
  | EmptyString, _ => Some s
  | String a p', String b s' => if Ascii.eqb a b then strip_prefix p' s' else None
  | String _ _, EmptyString => None
  end.

(** The characters of a string literal, after its opening quote. *)
Fixpoint read_string (s : string) : option (string * string) :=
  match s with
  | EmptyString => None
  | String c s' =>
      if Ascii.eqb c dquote then Some (EmptyString, s')
      else if Ascii.eqb c backslash then
        match s' with
        | String c' s'' =>
            match read_string s'' with
            | Some (t, rest) => Some (String c' t, rest)
            | None => None
            end
        | EmptyString => None
        end
      else
        match read_string s' with
        | Some (t, rest) => Some (String c t, rest)
        | None => None
        end
  end.

Definition digit (c : ascii) : option Z :=
  let n := Z.of_N (N_of_ascii c) in
  if (48 <=? n)%Z && (n <=? 57)%Z then Some (n - 48)%Z else None.

Fixpoint read_digits (acc : Z) (s : string) : Z * string :=
  match s with
  | String c s' =>
      match digit c with
      | Some k => read_digits (10 * acc + k) s'
      | None => (acc, s)
      end
  | EmptyString => (acc, s)
  end.

Definition read_int (s : string) : option (json * string) :=
  match s with
  | String "-" (String c s') =>
      match digit c with
      | Some k => let (n, rest) := read_digits k s' in Some (JInt (- n), rest)
      | None => None
      end
  | String c s' =>
      match digit c with
      | Some k => let (n, rest) := read_digits k s' in Some (JInt n, rest)
      | None => None
      end
  | EmptyString => None
  end.

Fixpoint read_value (fuel : nat) (s : string) : option (json * string) :=
  match fuel with
  | O => None
  | S fuel' =>
      let s := skip_ws s in
      match strip_prefix "null" s, strip_prefix "true" s, strip_prefix "false" s with
      | Some rest, _, _ => Some (JNull, rest)
      | _, Some rest, _ => Some (JBool true, rest)
      | _, _, Some rest => Some (JBool false, rest)
      | None, None, None =>
          match s with
          | String "[" s' =>
              match skip_ws s' with
              | String "]" rest => Some (JList [], rest)
              | _ => match read_items fuel' s' with
                     | Some (l, rest) => Some (JList l, rest)
                     | None => None
                     end
              end
          | String "{" s' =>
              match skip_ws s' with
              | String "}" rest => Some (JDict [], rest)
              | _ => match read_members fuel' s' with
                     | Some (d, rest) => Some (JDict d, rest)
                     | None => None
                     end
              end
          | String c s' =>
              if Ascii.eqb c dquote then
                match read_string s' with
                | Some (t, rest) => Some (JStr t, rest)
                | None => None
                end
              else read_int s
          | EmptyString => None
          end
      end
  end
with read_items (fuel : nat) (s : string) : option (list json * string) :=
  match fuel with
  | O => None
  | S fuel' =>
      match read_value fuel' s with
      | Some (v, rest) =>
          match skip_ws rest with
          | String "," rest' =>
              match read_items fuel' rest' with
              | Some (l, rest'') => Some (v :: l, rest'')
              | None => None
              end
          | String "]" rest' => Some ([v], rest')
          | _ => None
          end
      | None => None
      end
  end
with read_members (fuel : nat) (s : string) : option (dict * string) :=
  match fuel with
  | O => None
  | S fuel' =>
      match skip_ws s with
      | String c s' =>
          if Ascii.eqb c dquote then
            match read_string s' with
            | Some (k, rest) =>
                match skip_ws rest with
                | String ":" rest' =>
                    match read_value fuel' rest' with
                    | Some (v, rest'') =>
                        match skip_ws rest'' with
                        | String "," rest3 =>
                            match read_members fuel' rest3 with
                            | Some (d, rest4) => Some ((k, v) :: d, rest4)
                            | None => None
                            end
                        | String "}" rest3 => Some ([(k, v)], rest3)
                        | _ => None
                        end
                    | None => None
                    end
                | _ => None
                end
            | None => None
            end
          else None
      | EmptyString => None
      end
  end.

Definition loads (s : string) : option json :=
  match read_value (2 * String.length s + 2) s with
  | Some (v, rest) =>
      match skip_ws rest with
      | EmptyString => Some v
      | _ => None
      end
  | None => None
  end.

End PyJson.


(** ** Environments and worlds for the examples *)

Definition sample_payload : json :=
  JDict [("result", JBool true); ("code", JInt 200)].

(** Nothing fails; job ids are numbered by the length of the log. *)
Definition env_ok : env :=
  Env (fun w => "job-" +:+ pretty (length (log w)))
      (fun _ _ => None)
      (fun _ _ _ => None)
      (fun _ _ => Returns sample_payload)
      (fun _ _ => None).

(** The provider refuses the upload. *)
Definition env_upload_raises : env :=
  Env (uuid4 env_ok) (stage_fault env_ok) (write_fault env_ok)
      (fun _ _ => Raises (Exception "HTTP 401 token=s3cr3t"))
      (remove_fault env_ok).

(** The first call of [write_status] of the process raises at [open];
    the later ones succeed. *)
Definition env_first_write_raises : env :=
  Env (uuid4 env_ok) (stage_fault env_ok)
      (fun w _ _ =>
         match status_calls (log w) with
         | [] => Some (Fault (Exception "OSError: [Errno 28] No space left on device") None)
         | _ => None
         end)
      (remote env_ok) (remove_fault env_ok).

(** Staging the upload fails after part of the bytes were written. *)
Definition env_disk_full : env :=
  Env (uuid4 env_ok)
      (fun _ _ => Some (Fault (Exception "OSError: [Errno 28] No space left on device")
                              (Some "partial")))
      (write_fault env_ok) (remote env_ok) (remove_fault env_ok).

(** Every call of [write_status] raises at [open]. *)
Definition env_writes_raise : env :=
  Env (uuid4 env_ok) (stage_fault env_ok)
      (fun _ _ _ => Some (Fault (Exception "PermissionError: [Errno 13]") None))
      (remote env_ok) (remove_fault env_ok).

(** The second call of [write_status] of the process raises while the
    record is being printed; the file is left with the text [{]. *)
Definition env_second_write_raises : env :=
  Env (uuid4 env_ok) (stage_fault env_ok)
      (fun w _ _ =>
         match status_calls (log w) with
         | [_] => Some (Fault (Exception "TypeError: not JSON serializable") (Some "{"))
         | _ => None
         end)
      (remote env_ok) (remove_fault env_ok).

(** [os.remove] fails on every file. *)
Definition env_remove_raises : env :=
  Env (uuid4 env_ok) (stage_fault env_ok) (write_fault env_ok) (remote env_ok)
      (fun _ _ => Some (Exception "PermissionError: [Errno 13] Permission denied")).

Definition empty_world : world := World ∅ [] [].

(** The record file of [j1] holds a text that is not JSON. *)
Definition corrupt_world : world :=
  World {[ "/tmp/upload_statuses/j1.json" := "{" ]} [] [].

(** The temporary file of job [j1] is staged and its task was taken
    from the queue. *)
Definition staged_world : world :=
  World {[ "/tmp/j1-a.bin" := "bytes" ]} [] [].

Definition sample_upload : UploadFile := Upload (Some "a.bin") "bytes".

Abbreviation worker_ok :=
  (upload_to_seedr_in_background PyJson.dumps env_ok "j1" "/tmp/j1-a.bin").
Abbreviation worker_refused :=
  (upload_to_seedr_in_background PyJson.dumps env_upload_raises "j1" "/tmp/j1-a.bin").
Abbreviation worker_unwritten :=
  (upload_to_seedr_in_background PyJson.dumps env_first_write_raises "j1" "/tmp/j1-a.bin").

Abbreviation worker_remove_raises :=
  (upload_to_seedr_in_background PyJson.dumps env_remove_raises "j1" "/tmp/j1-a.bin").
Abbreviation worker_writes_raise :=
  (upload_to_seedr_in_background PyJson.dumps env_writes_raise "j1" "/tmp/j1-a.bin").
Abbreviation worker_second_write_raises :=
  (upload_to_seedr_in_background PyJson.dumps env_second_write_raises "j1" "/tmp/j1-a.bin").
Abbreviation upload_unwritten :=
  (upload_file PyJson.dumps env_first_write_raises sample_upload).
Abbreviation upload_disk_full := (upload_file PyJson.dumps env_disk_full sample_upload).
Abbreviation upload_ok := (upload_file PyJson.dumps env_ok sample_upload).

(** The Status Store after [write_status] of the [pending] record, and
    after [write_status] of an empty record, for job [j1]. *)
Definition pending_world : world :=
  final (write_status PyJson.dumps env_ok "j1" pending_record) empty_world.
Definition empty_record_world : world :=
  final (write_status PyJson.dumps env_ok "j1" []) empty_world.

(** One upload request, then the run of its background task. *)
Definition uploaded_world : world :=
  final (serve (route PyJson.dumps PyJson.loads env_ok (PostUpload sample_upload)))
        empty_world.
Definition processed_world : world :=
  final (run_background_task PyJson.dumps env_ok) uploaded_world.

(** * Properties *)

Lemma pending_record_wf : record_wf pending_record.
Proof. unfold record_wf; simpl. intuition discriminate. Qed.

Lemma processing_record_wf : record_wf processing_record.
Proof. unfold record_wf; simpl. intuition discriminate. Qed.

Lemma completed_record_wf (payload : json) : record_wf (completed_record payload).
Proof. unfold record_wf; simpl. intuition discriminate. Qed.

Lemma failed_record_wf : record_wf failed_record.
Proof. unfold record_wf; simpl. intuition discriminate. Qed.

Create HintDb records.
#[local] Hint Resolve pending_record_wf processing_record_wf
  completed_record_wf failed_record_wf : records.

Ltac check_records :=
  unfold records_wf; simpl;
  repeat first [ apply Forall_nil_2
               | apply Forall_cons_2; [simpl; auto with records|] ].

(** [H], a membership in an explicit list, holds of none of its
    elements. *)
Ltac absurd_in H :=
  solve [ simpl in H;
          repeat (destruct H as [H|H]; [discriminate H|]);
          first [contradiction H | discriminate H] ].

(** ** Paths *)

Lemma chars_app (a b : string) :
  list_ascii_of_string (a +:+ b) = list_ascii_of_string a ++ list_ascii_of_string b.
Proof. induction a as [|c a IH]; simpl; [reflexivity | by rewrite IH]. Qed.

Lemma chars_inj (a b : string) :
  list_ascii_of_string a = list_ascii_of_string b -> a = b.
Proof.
  intros H. rewrite <- (string_of_list_ascii_of_string a),
    <- (string_of_list_ascii_of_string b), H. reflexivity.
Qed.

Lemma append_inv_tail (a b s : string) : a +:+ s = b +:+ s -> a = b.
Proof.
  intros H. apply chars_inj. apply (f_equal list_ascii_of_string) in H.
  rewrite !chars_app in H. by apply app_inv_tail in H.
Qed.

Lemma status_path_relative (file_id : string) :
  absolute file_id = false ->
  status_path file_id = "/tmp/upload_statuses/" +:+ file_id +:+ ".json".
Proof.
  unfold status_path, os_path_join, absolute.
  destruct file_id as [|c file_id]; [reflexivity|].
  change (String c file_id +:+ ".json") with (String c (file_id +:+ ".json")).
  cbv iota. intros ->. reflexivity.
Qed.

Lemma status_path_absolute (file_id : string) :
  absolute file_id = true -> status_path file_id = file_id +:+ ".json".
Proof.
  unfold status_path, os_path_join, absolute.
  destruct file_id as [|c file_id]; [discriminate|].
  change (String c file_id +:+ ".json") with (String c (file_id +:+ ".json")).
  cbv iota. intros ->. reflexivity.
Qed.

(** In a word [J x rest] that also reads [P J s], the letter [x] after
    [J] is a letter of [P]: [J] repeats [P] and [x] falls in the next
    copy. *)
Lemma letter_after_period (P : list ascii) (x : ascii) (n : nat) :
  P <> [] ->
  forall J rest s : list ascii,
    (length J <= n)%nat ->
    J ++ x :: rest = P ++ J ++ s ->
    x ∈ P.
Proof.
  intros HP. induction n as [|n IH]; intros J rest s Hlen Heq.
  - destruct J; [|simpl in Hlen; lia].
    destruct P as [|c P]; [done|]. simpl in Heq. injection Heq as -> _. left.
  - destruct (decide (length J < length P)%nat) as [Hlt | Hge].
    + apply (f_equal (fun l => l !! length J)) in Heq.
      rewrite list_lookup_middle in Heq by reflexivity.
      rewrite lookup_app_l in Heq by exact Hlt.
      eapply list_elem_of_lookup_2. symmetry. exact Heq.
    + assert (HJ : J = P ++ drop (length P) J).
      { rewrite <- (take_drop (length P) J) at 1. f_equal.
        apply (f_equal (take (length P))) in Heq.
        rewrite take_app_le in Heq by lia.
        rewrite take_app_length in Heq. exact Heq. }
      generalize dependent (drop (length P) J). intros J1 ->.
      rewrite <- app_assoc in Heq. apply app_inv_head in Heq.
      rewrite <- app_assoc in Heq.
      apply (IH J1 rest s); [|exact Heq].
      rewrite length_app in Hlen. destruct P; [done|]. simpl in Hlen. lia.
Qed.


Lemma no_slash_relative (file_id : string) : has_slash file_id = false -> absolute file_id = false.
Proof.
  destruct file_id as [|c file_id]; [reflexivity|]. simpl.
  intros H. by apply orb_false_elim in H as [-> _].
Qed.


(** The temporary file of an upload is never the record file of its own
    job, whatever the job id and the filename hint. *)
Lemma tmp_path_status_path_ne (file_id : string) (file : UploadFile) :
  tmp_path_of file_id file <> status_path file_id.
Proof.
  unfold tmp_path_of. intros Heq. destruct (absolute file_id) eqn:Ha.
  - rewrite (status_path_absolute _ Ha) in Heq.
    apply (f_equal (fun s => length (list_ascii_of_string s))) in Heq.
    rewrite !chars_app, !length_app in Heq. simpl in Heq. lia.
  - rewrite (status_path_relative _ Ha) in Heq.
    change ("/tmp/upload_statuses/" +:+ file_id +:+ ".json")
      with ("/tmp/" +:+ "upload_statuses/" +:+ file_id +:+ ".json") in Heq.
    apply (inj (String.app _)) in Heq.
    apply (f_equal list_ascii_of_string) in Heq. rewrite !chars_app in Heq.
    assert (Hin : ("-"%char : ascii) ∈ list_ascii_of_string "upload_statuses/").
    { eapply (letter_after_period _ _ (length (list_ascii_of_string file_id)));
        [discriminate | reflexivity | exact Heq]. }
    apply list_elem_of_In in Hin. absurd_in Hin.
Qed.

Section Properties.

Set Default Proof Using "Type".

Variable json_dumps : json -> string.
Variable json_loads : string -> option json.
Variable E : env.

Lemma drop_log_app (l k : list event) : drop (length l) (l ++ k) = k.
Proof. apply drop_app_length. Qed.

(** Unfold a handler down to the oracles of the environment. *)
Ltac unfold_handler :=
  repeat progress
    unfold new_events, final, result, upload_file,
      get_upload_status, read_status, delete_item_route, delete_item,
      new_uuid, stage, add_task, write_status, seedr, logger_error, emit,
      try_finally, try_except, bind, logged, write_file, read_file,
      os_path_exists, os_remove, ret, raise.

(** Case on the next oracle the run consults: one whose world argument
    holds no pending oracle call. *)
Ltac settled w :=
  lazymatch w with
  | context [write_fault] => fail
  | context [stage_fault] => fail
  | context [remote] => fail
  | context [remove_fault] => fail
  | _ => idtac
  end.

Ltac next_oracle :=
  match goal with
  | |- context [write_fault ?e ?w ?p ?t] =>
      settled w; destruct (write_fault e w p t) as [[? [?|]]|] eqn:?
  | |- context [stage_fault ?e ?w ?p] =>
      settled w; destruct (stage_fault e w p) as [[? [?|]]|] eqn:?
  | |- context [remote ?e ?w ?c] =>
      settled w; destruct (remote e w c) as [?|?] eqn:?
  end.

Ltac run_handler := unfold_handler; cbn; repeat (next_oracle; cbn).

(** The worker is its [try]/[except] part under the [finally]. *)
Lemma worker_unfold (file_id tmp_path : string) :
  upload_to_seedr_in_background json_dumps E file_id tmp_path
  = try_finally (worker_body json_dumps E file_id tmp_path) (worker_cleanup E tmp_path).
Proof. reflexivity. Qed.

Lemma worker_body_trace (file_id tmp_path : string) (w : world) :
  exists evs,
    log (final (worker_body json_dumps E file_id tmp_path) w) = (log w ++ evs)%list /\
    worker_trace file_id tmp_path evs.
Proof.
  unfold worker_body. run_handler.
  all: eexists; split;
    [ rewrite <- !app_assoc; simpl; reflexivity | econstructor ].
Qed.

Lemma worker_cleanup_run (tmp_path : string) (w : world) :
  exists r w' tail,
    worker_cleanup E tmp_path w = (r, w') /\
    log w' = (log w ++ tail)%list /\
    cleanup_tail tmp_path tail /\
    tasks w' = tasks w /\
    (forall path, path <> tmp_path -> files w' !! path = files w !! path) /\
    (tail <> [EvRemove tmp_path false] ->
     r = Returns tt /\ files w' !! tmp_path = None) /\
    (tail = [EvRemove tmp_path false] ->
     (exists e, r = Raises e) /\ is_Some (files w' !! tmp_path)).
Proof.
  unfold worker_cleanup, bind, os_path_exists, os_remove, remove_file, ret.
  destruct (files w !! tmp_path) as [c|] eqn:Hf.
  - rewrite bool_decide_true by eauto. rewrite Hf.
    destruct (remove_fault E w tmp_path) as [e|].
    + eexists _, _, [EvRemove tmp_path false].
      split_and!; [reflexivity | reflexivity | constructor | reflexivity | | |].
      * intros path _. reflexivity.
      * intros Hne. by destruct Hne.
      * intros _. simpl. rewrite Hf. eauto.
    + eexists _, _, [EvRemove tmp_path true].
      split_and!; [reflexivity | reflexivity | constructor | reflexivity | | |].
      * intros path Hne. simpl. by apply lookup_delete_ne.
      * intros _. split; [reflexivity | apply lookup_delete_eq].
      * discriminate.
  - rewrite bool_decide_false by (intros [? ?]; congruence).
    eexists _, _, []. rewrite app_nil_r.
    split_and!; [reflexivity | reflexivity | constructor | reflexivity | | |];
      [auto | auto | discriminate].
Qed.

Lemma cleanup_tail_quiet (tmp_path : string) (tail : list event) :
  cleanup_tail tmp_path tail ->
  status_calls tail = [] /\ status_writes tail = [] /\
  all_writes_returned tail = true /\ issued tail = [].
Proof. intros []; split_and!; reflexivity. Qed.

(** A whole run of the worker is a run of its [try]/[except] part, then
    the cleanup.  Unless [os.remove] raised, the outcome is that of the
    first part and the file is gone; when it raised, the worker raises
    and the file is left. *)
Lemma worker_run (file_id tmp_path : string) (w : world) :
  let worker := upload_to_seedr_in_background json_dumps E file_id tmp_path in
  let body := worker_body json_dumps E file_id tmp_path in
  exists tail,
    new_events worker w = (new_events body w ++ tail)%list /\
    cleanup_tail tmp_path tail /\
    worker_trace file_id tmp_path (new_events body w) /\
    (forall path, path <> tmp_path ->
       files (final worker w) !! path = files (final body w) !! path) /\
    tasks (final worker w) = tasks (final body w) /\
    (tail <> [EvRemove tmp_path false] ->
     result worker w = result body w /\ files (final worker w) !! tmp_path = None) /\
    (tail = [EvRemove tmp_path false] ->
     (exists e, result worker w = Raises e) /\
     is_Some (files (final worker w) !! tmp_path)) /\
    log (final worker w) = (log w ++ new_events worker w)%list.
Proof.
  intros worker body. subst worker body.
  destruct (worker_body_trace file_id tmp_path w) as (evs & Hlog & Htrace).
  unfold new_events, final, result in *. rewrite worker_unfold. unfold try_finally.
  destruct (worker_body json_dumps E file_id tmp_path w) as [r w1]. simpl in Hlog |- *.
  destruct (worker_cleanup_run tmp_path w1)
    as (r2 & w2 & tail & -> & Hlog2 & Htail & Htasks & Hframe & Hok & Hbad).
  exists tail.
  assert (Hfin : w2 = (match r2 with
                       | Returns _ => (r, w2)
                       | Raises e => (Raises e, w2)
                       end).2) by (destruct r2; reflexivity).
  rewrite <- Hfin, Hlog2, Hlog, <- app_assoc, !drop_log_app.
  split_and!; auto.
  - intros Hne. destruct (Hok Hne) as [-> Hgone]. split; [reflexivity | exact Hgone].
  - intros Heq. destruct (Hbad Heq) as [[e ->] Hleft]. split; [|exact Hleft].
    exists e. reflexivity.
Qed.

(** The removal that raised is the last event of the run, if any. *)
Lemma remove_raised_last (file_id tmp_path : string) (evs tail : list event) :
  worker_trace file_id tmp_path evs ->
  cleanup_tail tmp_path tail ->
  In (EvRemove tmp_path false) (evs ++ tail) <-> tail = [EvRemove tmp_path false].
Proof.
  intros Htrace Htail. split.
  - intros Hin. apply in_app_or in Hin. destruct Hin as [Hin | Hin].
    + destruct Htrace; absurd_in Hin.
    + destruct Htail; [absurd_in Hin | absurd_in Hin | reflexivity].
  - intros ->. apply in_or_app. right. left. reflexivity.
Qed.

(** C2 (amended): on every exit path of the [try]/[except] part of the
    worker (the remote upload returns, the remote upload raises, a
    status write raises) the cleanup runs, and once the worker has
    finished the staged temporary file at [tmp_path] does not exist,
    unless the call of [os.remove] itself raised: then the file is left
    and the worker ends with an exception. *)
Theorem worker_removes_tmp_file (file_id tmp_path : string) (w : world) :
  let worker := upload_to_seedr_in_background json_dumps E file_id tmp_path in
  (~ In (EvRemove tmp_path false) (new_events worker w) ->
   files (final worker w) !! tmp_path = None) /\
  (In (EvRemove tmp_path false) (new_events worker w) ->
   (exists e, result worker w = Raises e) /\
   is_Some (files (final worker w) !! tmp_path)).
Proof.
  intros worker. subst worker.
  destruct (worker_run file_id tmp_path w)
    as (tail & -> & Htail & Htrace & _ & _ & Hok & Hbad & _).
  pose proof (remove_raised_last _ _ _ _ Htrace Htail) as Hlast.
  split.
  - intros Hnot. apply Hok. intros Heq. apply Hnot. by apply Hlast.
  - intros Hin. apply Hbad. by apply Hlast.
Qed.

Lemma worker_events (file_id tmp_path : string) (w : world) :
  exists evs tail,
    new_events (upload_to_seedr_in_background json_dumps E file_id tmp_path) w
    = (evs ++ tail)%list /\
    worker_trace file_id tmp_path evs /\
    cleanup_tail tmp_path tail.
Proof.
  destruct (worker_run file_id tmp_path w) as (tail & Hev & Htail & Htrace & _).
  eauto.
Qed.

(** When the [failed] record was written, the file of the job holds it
    at the end of the [try]/[except] part. *)
Lemma worker_body_failed_stored (file_id tmp_path : string) (w : world) :
  In (EvStatusWrite file_id failed_record true)
     (new_events (worker_body json_dumps E file_id tmp_path) w) ->
  files (final (worker_body json_dumps E file_id tmp_path) w) !! status_path file_id
  = Some (json_dumps (JDict failed_record)).
Proof.
  unfold worker_body, status_path, failed_record. run_handler.
  all: rewrite <- ?app_assoc, drop_log_app; simpl; intros Hin.
  all: try (apply lookup_insert_eq).
  all: absurd_in Hin.
Qed.

Lemma status_writes_app (l k : list event) :
  status_writes (l ++ k) = (status_writes l ++ status_writes k)%list.
Proof.
  induction l as [|ev l IH]; [reflexivity|].
  destruct ev as [| | |? ? [|]| | |]; simpl; rewrite ?IH; reflexivity.
Qed.

Lemma all_writes_returned_app (l k : list event) :
  all_writes_returned (l ++ k) = all_writes_returned l && all_writes_returned k.
Proof. apply forallb_app. Qed.

(** C1 (amended): the records of one worker that reach the Status Store
    are, in order, at most one [processing] record and then at most one
    terminal record, all under the key of the job, and none follows a
    terminal record; when no call of [write_status] raises they are
    exactly [processing] and then one terminal record. *)
Theorem worker_write_sequence (file_id tmp_path : string) (w : world) :
  let evs := new_events (upload_to_seedr_in_background json_dumps E file_id tmp_path) w in
  (status_writes evs = [] \/
   status_writes evs = [(file_id, processing_record)] \/
   status_writes evs = [(file_id, failed_record)] \/
   (exists payload, status_writes evs =
                      [(file_id, processing_record); (file_id, completed_record payload)]) \/
   status_writes evs = [(file_id, processing_record); (file_id, failed_record)]) /\
  (all_writes_returned evs = true ->
   processing_then_terminal file_id (status_writes evs) = true).
Proof.
  intros evs. subst evs.
  destruct (worker_events file_id tmp_path w) as (evs & tail & -> & Htrace & Htail).
  rewrite status_writes_app, all_writes_returned_app.
  destruct (cleanup_tail_quiet _ _ Htail) as (_ & -> & -> & _).
  rewrite app_nil_r, andb_true_r.
  destruct Htrace as [payload | payload e ok | e ok | e ok]; simpl; split.
  - right; right; right; left. eauto.
  - intros _. rewrite String.eqb_refl. reflexivity.
  - destruct ok; simpl; auto.
  - discriminate.
  - destruct ok; simpl; auto.
  - destruct ok; [|discriminate]. intros _. rewrite String.eqb_refl. reflexivity.
  - destruct ok; simpl; auto.
  - discriminate.
Qed.

Lemma status_calls_app (l k : list event) :
  status_calls (l ++ k) = (status_calls l ++ status_calls k)%list.
Proof.
  induction l as [|ev l IH]; [reflexivity|].
  destruct ev; simpl; rewrite ?IH; reflexivity.
Qed.

(** C5: when the remote upload call raises [e], the worker logs [e] and
    calls [write_status] with the record [failed_record], whose error
    field is the fixed text ["Upload process failed."]: the calls of
    [write_status] of the run and the content stored for the job are the
    same for every [e]. *)
Theorem upload_exception_not_recorded (file_id tmp_path : string) (w : world) (e : exn) :
  let worker := upload_to_seedr_in_background json_dumps E file_id tmp_path in
  In (EvRemote (Upload_file tmp_path) (Raises e)) (new_events worker w) ->
  dict_get "error" failed_record = Some (JStr "Upload process failed.") /\
  has_status "failed" failed_record = true /\
  In (EvLogError (upload_failed_msg file_id e)) (new_events worker w) /\
  status_calls (new_events worker w)
  = [(file_id, processing_record); (file_id, failed_record)] /\
  exists ok : bool,
    status_writes (new_events worker w)
    = (file_id, processing_record) :: (if ok then [(file_id, failed_record)] else []) /\
    (ok = true -> tmp_path <> status_path file_id ->
     files (final worker w) !! status_path file_id
     = Some (json_dumps (JDict failed_record))).
Proof.
  intros worker. subst worker.
  destruct (worker_run file_id tmp_path w)
    as (tail & Hev & Htail & Htrace & Hfiles & _).
  pose proof (worker_body_failed_stored file_id tmp_path w) as Hstored.
  rewrite Hev. clear Hev.
  intros Hin. split; [reflexivity|]. split; [reflexivity|].
  assert (Hbody : In (EvRemote (Upload_file tmp_path) (Raises e))
                     (new_events (worker_body json_dumps E file_id tmp_path) w)).
  { apply in_app_or in Hin. destruct Hin as [Hin | Hin]; [exact Hin|].
    destruct Htail; absurd_in Hin. }
  clear Hin. rewrite status_calls_app, status_writes_app.
  destruct (cleanup_tail_quiet _ _ Htail) as (-> & -> & _). rewrite !app_nil_r.
  destruct Htrace as [payload | payload e' ok | e' ok | e' ok];
    try absurd_in Hbody; simpl in Hbody.
  destruct Hbody as [|[Heq|[|[|[]]]]]; try discriminate.
  injection Heq as ->.
  split; [apply in_or_app; left; simpl; auto|].
  split; [reflexivity|].
  exists ok. split; [destruct ok; reflexivity|].
  intros -> Hne. rewrite Hfiles by (intros Heq; apply Hne; symmetry; exact Heq).
  apply Hstored. simpl. auto.
Qed.

(** *** The Status Store and the status query *)

Lemma read_status_missing (file_id : string) (w : world) :
  files w !! status_path file_id = None ->
  read_status json_loads file_id w = (Returns JNull, w).
Proof.
  intros Hf. unfold read_status, bind, os_path_exists. fold (status_path file_id).
  rewrite bool_decide_false by (intros [? ?]; congruence). reflexivity.
Qed.

Lemma read_status_present (file_id text : string) (w : world) :
  files w !! status_path file_id = Some text ->
  read_status json_loads file_id w
  = (match json_loads text with
     | Some v => Returns v
     | None => Raises (Exception "JSONDecodeError")
     end, w).
Proof.
  intros Hf. unfold read_status, bind, os_path_exists, read_file.
  fold (status_path file_id).
  rewrite bool_decide_true by eauto. simpl. rewrite Hf.
  destruct (json_loads text); reflexivity.
Qed.

(** C8: a write of [record] under [file_id] that returns leaves exactly
    the serialised [record] in the file of that key, whatever it held
    before, and a read of [file_id] then returns [record], given that
    [json.load] reads back what [json.dump] printed for it. *)
Theorem read_after_write (file_id : string) (record : dict) (w : world) :
  json_loads (json_dumps (JDict record)) = Some (JDict record) ->
  result (write_status json_dumps E file_id record) w = Returns tt ->
  let w' := final (write_status json_dumps E file_id record) w in
  files w' !! status_path file_id = Some (json_dumps (JDict record)) /\
  read_status json_loads file_id w' = (Returns (JDict record), w').
Proof.
  intros Hcodec Hok w'.
  assert (Hfile : files w' !! status_path file_id = Some (json_dumps (JDict record))).
  { subst w'. revert Hok. unfold status_path. run_handler; intros Hok;
      try discriminate. apply lookup_insert_eq. }
  split; [exact Hfile|].
  rewrite (read_status_present _ _ _ Hfile), Hcodec. reflexivity.
Qed.

Lemma job_record_truthy (d : dict) : job_record d = true -> truthy (JDict d) = true.
Proof. destruct d; [discriminate | reflexivity]. Qed.

(** C6: the status query answers 404 when no record exists for the id,
    [read_status] returning [None] for the missing key without raising;
    when a Job Record is stored for the id (a record with one of the
    four statuses, as the four records the service writes are) it
    answers that record, as read, with 200.  The same holds of every
    stored document that is truthy. *)
Theorem status_query (file_id : string) (w : world) :
  (files w !! status_path file_id = None ->
   read_status json_loads file_id w = (Returns JNull, w) /\
   get_upload_status json_loads file_id w = (Returns not_found_response, w)) /\
  (forall (text : string) (record : dict),
     files w !! status_path file_id = Some text ->
     json_loads text = Some (JDict record) ->
     job_record record = true ->
     get_upload_status json_loads file_id w
     = (Returns (Response (JDict record) 200), w)) /\
  (forall (text : string) (record : json),
     files w !! status_path file_id = Some text ->
     json_loads text = Some record ->
     truthy record = true ->
     get_upload_status json_loads file_id w = (Returns (Response record 200), w)) /\
  (job_record pending_record = true /\ job_record processing_record = true /\
   job_record failed_record = true /\
   forall payload, job_record (completed_record payload) = true).
Proof.
  assert (Htruthy : forall (text : string) (record : json),
            files w !! status_path file_id = Some text ->
            json_loads text = Some record ->
            truthy record = true ->
            get_upload_status json_loads file_id w = (Returns (Response record 200), w)).
  { intros text record Hf Hload Htrue.
    unfold get_upload_status, bind.
    rewrite (read_status_present _ _ _ Hf), Hload, Htrue. reflexivity. }
  split_and!; try reflexivity.
  - intros Hf. split; [apply read_status_missing; exact Hf|].
    unfold get_upload_status, bind. rewrite (read_status_missing _ _ Hf). reflexivity.
  - intros text record Hf Hload Hrec.
    apply (Htruthy text); [exact Hf | exact Hload | by apply job_record_truthy].
  - exact Htruthy.
Qed.

(** C10: when the file of [file_id] holds a document that [json.load]
    reads as a falsy value (the empty dictionary, for one), the status
    query answers 404 although the record exists. *)
Theorem status_query_falsy_record (file_id text : string) (record : json) (w : world) :
  files w !! status_path file_id = Some text ->
  json_loads text = Some record ->
  truthy record = false ->
  get_upload_status json_loads file_id w = (Returns not_found_response, w).
Proof.
  intros Hf Hload Hfalse.
  unfold get_upload_status, bind.
  rewrite (read_status_present _ _ _ Hf), Hload, Hfalse. reflexivity.
Qed.

(** *** The Job Dispatcher *)

(** C3: when staging the bytes raises, the request raises the same
    exception (the client gets the 500 response of the exception
    handler); the run consists of the draw of the id and the failed
    staging only: [write_status] is not called and no task is scheduled. *)
Theorem staging_failure (file : UploadFile) (w : world) (tmp_path : string) :
  let handler := upload_file json_dumps E file in
  In (EvStage tmp_path false) (new_events handler w) ->
  new_events handler w = [EvUuid (uuid4 E w); EvStage tmp_path false] /\
  tmp_path = tmp_path_of (uuid4 E w) file /\
  status_calls (new_events handler w) = [] /\
  tasks (final handler w) = tasks w /\
  (exists e, result handler w = Raises e) /\
  result (serve handler) w = Returns internal_error_response.
Proof.
  unfold serve, generic_exception_handler, tmp_path_of. run_handler.
  all: rewrite <- ?app_assoc, drop_log_app; simpl; intros Hin.
  all: try absurd_in Hin.
  all: destruct Hin as [Heq|[Heq|[]]]; try discriminate; injection Heq as <-.
  all: split_and!; eauto.
Qed.


(** *** Deleting an item *)


(** *** Job Records along the runs of the service *)

Lemma records_wf_app (l k : list event) :
  records_wf l -> records_wf k -> records_wf (l ++ k).
Proof. unfold records_wf. rewrite status_calls_app. apply Forall_app_2. Qed.

Lemma worker_records_wf (file_id tmp_path : string) (w : world) :
  records_wf (new_events (upload_to_seedr_in_background json_dumps E file_id tmp_path) w).
Proof.
  destruct (worker_events file_id tmp_path w) as (evs & tail & -> & Htrace & Htail).
  apply records_wf_app.
  - destruct Htrace as [? | ? ? [|] | ? [|] | ? [|]]; check_records.
  - destruct Htail; check_records.
Qed.

Lemma task_step (w : world) :
  let m := run_background_task json_dumps E in
  log (final m w) = (log w ++ new_events m w)%list /\ records_wf (new_events m w).
Proof.
  unfold run_background_task, new_events, final.
  destruct (tasks w) as [|[file_id tmp_path] rest].
  - simpl. rewrite drop_all, app_nil_r. split; [reflexivity | check_records].
  - set (w1 := World (files w) rest (log w)).
    destruct (worker_run file_id tmp_path w1) as (tail & _ & _ & _ & _ & _ & _ & _ & Hlog).
    pose proof (worker_records_wf file_id tmp_path w1) as Hwf.
    change (log w) with (log w1). split; [exact Hlog | exact Hwf].
Qed.

Lemma request_step (r : request) (w : world) :
  let m := serve (route json_dumps json_loads E r) in
  log (final m w) = (log w ++ new_events m w)%list /\ records_wf (new_events m w).
Proof.
  assert (Hfinish : forall l k : list event,
             records_wf k -> l ++ k = l ++ drop (length l) (l ++ k) /\
                             records_wf (drop (length l) (l ++ k)))
    by (intros l k Hk; rewrite drop_log_app; auto).
  assert (Hnone : forall l : list event,
             l = l ++ drop (length l) l /\ records_wf (drop (length l) l))
    by (intros l; rewrite drop_all, app_nil_r; split; [reflexivity | check_records]).
  destruct r as [|file|file_id|magnet| |file_id|item_id item_type];
    unfold serve, generic_exception_handler, route, read_root, add_torrent,
      list_files, get_status.
  - run_handler. apply Hnone.
  - run_handler; rewrite <- ?app_assoc; apply Hfinish; check_records.
  - unfold get_upload_status, new_events, final, try_except, bind.
    destruct (files w !! status_path file_id) as [text|] eqn:Hf.
    + rewrite (read_status_present _ _ _ Hf).
      destruct (json_loads text) as [v|]; [destruct (truthy v)|]; simpl;
        solve [apply Hnone | apply Hfinish; check_records].
    + rewrite (read_status_missing _ _ Hf). apply Hnone.
  - run_handler; rewrite <- ?app_assoc; apply Hfinish; check_records.
  - run_handler; rewrite <- ?app_assoc; apply Hfinish; check_records.
  - destruct file_id as [[|c file_id]|];
      run_handler; rewrite <- ?app_assoc; apply Hfinish; check_records.
  - unfold delete_item_route, delete_item.
    destruct (String.eqb (default "file" item_type) "file");
      [|destruct (String.eqb (default "file" item_type) "folder")];
      run_handler; rewrite <- ?app_assoc;
      solve [apply Hnone | apply Hfinish; check_records].
Qed.

(** C7: in every world the service reaches, each record passed to
    [write_status] has a [result] field exactly when its status is
    [completed] and an [error] field exactly when its status is
    [failed]; a [pending] or [processing] record has neither. *)
Theorem written_records_well_formed (w : world) :
  reachable json_dumps json_loads E w ->
  forall (file_id : string) (record : dict) (ok : bool),
    In (EvStatusWrite file_id record ok) (log w) ->
    record_wf record.
Proof.
  intros Hreach.
  assert (Hinv : records_wf (log w)).
  { induction Hreach as [w [Hlog _] | w w' _ IH Hstep].
    - rewrite Hlog. constructor.
    - destruct Hstep as [r w | w].
      + destruct (request_step r w) as [-> Hwf]. apply records_wf_app; assumption.
      + destruct (task_step w) as [-> Hwf]. apply records_wf_app; assumption. }
  intros file_id record ok Hin.
  unfold records_wf in Hinv. rewrite Forall_forall in Hinv.
  apply (Hinv (file_id, record)). apply list_elem_of_In.
  clear -Hin. induction (log w) as [|ev l IH]; [contradiction|].
  destruct Hin as [-> | Hin]; [simpl; left; reflexivity|].
  specialize (IH Hin). destruct ev; simpl; auto.
Qed.

(** *** Frames: what a write and a worker leave alone *)

Lemma read_status_local (file_id : string) (w1 w2 : world) :
  files w1 !! status_path file_id = files w2 !! status_path file_id ->
  result (read_status json_loads file_id) w1 = result (read_status json_loads file_id) w2.
Proof.
  intros Heq. unfold result.
  destruct (files w2 !! status_path file_id) as [text|] eqn:Hf.
  - rewrite (read_status_present _ _ _ Heq), (read_status_present _ _ _ Hf). reflexivity.
  - rewrite (read_status_missing _ _ Heq), (read_status_missing _ _ Hf). reflexivity.
Qed.

Lemma write_status_frame (file_id : string) (record : dict) (w : world) (path : string) :
  path <> status_path file_id ->
  files (final (write_status json_dumps E file_id record) w) !! path = files w !! path.
Proof.
  intros Hne. unfold status_path in Hne. run_handler;
    rewrite ?lookup_insert_ne by (intros Heq; apply Hne; symmetry; exact Heq);
    reflexivity.
Qed.

(** X2: a write under a job id without a slash, whether it returns or
    raises, does not change what a read of another such id returns. *)
Theorem write_status_isolated (file_id other : string) (record : dict) (w : world) :
  has_slash file_id = false ->
  has_slash other = false ->
  file_id <> other ->
  result (read_status json_loads other)
         (final (write_status json_dumps E file_id record) w)
  = result (read_status json_loads other) w.
Proof.
  intros Hid Hother Hne. apply read_status_local. apply write_status_frame.
  intros Heq. apply Hne.
  rewrite (status_path_relative _ (no_slash_relative _ Hid)),
    (status_path_relative _ (no_slash_relative _ Hother)) in Heq.
  apply (inj (String.app _)) in Heq. symmetry. by apply append_inv_tail in Heq.
Qed.

Lemma worker_body_frame (file_id tmp_path : string) (w : world) :
  (forall path, path <> status_path file_id ->
     files (final (worker_body json_dumps E file_id tmp_path) w) !! path = files w !! path) /\
  tasks (final (worker_body json_dumps E file_id tmp_path) w) = tasks w.
Proof.
  unfold worker_body, status_path. split.
  - intros path Hne. run_handler;
      rewrite ?lookup_insert_ne by (intros Heq; apply Hne; symmetry; exact Heq);
      reflexivity.
  - run_handler; reflexivity.
Qed.

(** X3: the worker of a job touches two files only, the record of the
    job and the staged file, and leaves the task queue as it is; so the
    record of every other job reads as before. *)
Theorem worker_frame (file_id tmp_path : string) (w : world) :
  let worker := upload_to_seedr_in_background json_dumps E file_id tmp_path in
  (forall path, path <> status_path file_id -> path <> tmp_path ->
     files (final worker w) !! path = files w !! path) /\
  tasks (final worker w) = tasks w /\
  (forall other, status_path other <> status_path file_id ->
     status_path other <> tmp_path ->
     result (read_status json_loads other) (final worker w)
     = result (read_status json_loads other) w).
Proof.
  intros worker. subst worker.
  destruct (worker_run file_id tmp_path w) as (tail & _ & _ & _ & Hfiles & Htasks & _).
  destruct (worker_body_frame file_id tmp_path w) as [Hframe Hqueue].
  assert (Hpaths : forall path, path <> status_path file_id -> path <> tmp_path ->
            files (final (upload_to_seedr_in_background json_dumps E file_id tmp_path) w)
              !! path = files w !! path).
  { intros path Hsp Htmp. rewrite Hfiles by exact Htmp. by apply Hframe. }
  split_and!; [exact Hpaths | congruence |].
  intros other Hsp Htmp. apply read_status_local. by apply Hpaths.
Qed.

(** *** How a run of the worker ends *)

Lemma last_write_quiet (l : list event) : status_calls l = [] -> last_write l = None.
Proof.
  induction l as [|ev l IH]; [reflexivity|].
  destruct ev; simpl; auto; discriminate.
Qed.

Lemma last_write_app_quiet (l tail : list event) :
  status_calls tail = [] -> last_write (l ++ tail) = last_write l.
Proof.
  intros Hq. induction l as [|ev l IH]; simpl.
  - by apply last_write_quiet.
  - destruct ev; auto. rewrite IH. reflexivity.
Qed.

Lemma worker_tail_quiet (tmp_path : string) (tail : list event) :
  cleanup_tail tmp_path tail -> status_calls tail = [].
Proof. intros []; reflexivity. Qed.

Lemma worker_body_outcome (file_id tmp_path : string) (w : world) :
  let body := worker_body json_dumps E file_id tmp_path in
  match result body w with
  | Returns _ => exists d, last_write (new_events body w) = Some (d, true)
  | Raises _ => last_write (new_events body w) = Some (failed_record, false)
  end.
Proof.
  unfold worker_body. run_handler.
  all: rewrite <- ?app_assoc, drop_log_app; simpl; eauto.
Qed.

Lemma worker_body_last_write_stored (file_id tmp_path : string) (w : world) (d : dict) :
  let body := worker_body json_dumps E file_id tmp_path in
  last_write (new_events body w) = Some (d, true) ->
  files (final body w) !! status_path file_id = Some (json_dumps (JDict d)).
Proof.
  unfold worker_body, status_path. run_handler.
  all: rewrite <- ?app_assoc, drop_log_app; simpl; intros Hlast; try discriminate Hlast.
  all: injection Hlast as <-; apply lookup_insert_eq.
Qed.

(** X4: no exception of the provider and no failure of the first two
    status writes leaves the worker.  It returns exactly when its last
    call of [write_status] returned and [os.remove] did not raise; when
    it raises, either [os.remove] raised or the call that raised is the
    write of the [failed] record. *)
Theorem worker_outcome (file_id tmp_path : string) (w : world) :
  let worker := upload_to_seedr_in_background json_dumps E file_id tmp_path in
  (result worker w = Returns tt <->
   (exists d, last_write (new_events worker w) = Some (d, true)) /\
   ~ In (EvRemove tmp_path false) (new_events worker w)) /\
  (forall e, result worker w = Raises e ->
     In (EvRemove tmp_path false) (new_events worker w) \/
     last_write (new_events worker w) = Some (failed_record, false)).
Proof.
  intros worker. subst worker.
  destruct (worker_run file_id tmp_path w)
    as (tail & -> & Htail & Htrace & _ & _ & Hok & Hbad & _).
  pose proof (remove_raised_last _ _ _ _ Htrace Htail) as Hlast.
  rewrite (last_write_app_quiet _ _ (worker_tail_quiet _ _ Htail)).
  pose proof (worker_body_outcome file_id tmp_path w) as Hout. simpl in Hout.
  assert (Hcase : tail = [EvRemove tmp_path false] \/ tail <> [EvRemove tmp_path false])
    by (destruct Htail; [right; discriminate | right; discriminate | left; reflexivity]).
  destruct Hcase as [Heq | Hne].
  - destruct (Hbad Heq) as [[e0 Hres] _]. rewrite Hres. split.
    + split; [discriminate|]. intros [_ Hnot]. destruct Hnot. by apply Hlast.
    + intros e _. left. by apply Hlast.
  - destruct (Hok Hne) as [-> _].
    assert (Hnot : ~ In (EvRemove tmp_path false)
                     (new_events (worker_body json_dumps E file_id tmp_path) w ++ tail))
      by (intros Hin; apply Hne; by apply Hlast).
    destruct (result (worker_body json_dumps E file_id tmp_path) w) as [[]|e].
    + split; [|discriminate]. split; [intros _; split; assumption | reflexivity].
    + split; [|intros _ _; right; exact Hout].
      split; [discriminate|]. intros [[d Hd] _]. rewrite Hd in Hout. discriminate.
Qed.

(** X5: when the provider accepted the file but writing the [completed]
    record raised, the worker goes on to write [failed]: the calls of
    [write_status] are [processing], [completed], [failed], and the
    last record to reach the store, if any does, says [failed]. *)
Theorem completed_unwritten_reads_failed
    (file_id tmp_path : string) (w : world) (payload : json) :
  let worker := upload_to_seedr_in_background json_dumps E file_id tmp_path in
  In (EvStatusWrite file_id (completed_record payload) false) (new_events worker w) ->
  In (EvRemote (Upload_file tmp_path) (Returns payload)) (new_events worker w) /\
  status_calls (new_events worker w)
  = [(file_id, processing_record); (file_id, completed_record payload);
     (file_id, failed_record)] /\
  exists ok : bool,
    last_write (new_events worker w) = Some (failed_record, ok) /\
    status_writes (new_events worker w)
    = (file_id, processing_record) :: (if ok then [(file_id, failed_record)] else []).
Proof.
  intros worker. subst worker.
  destruct (worker_run file_id tmp_path w) as (tail & -> & Htail & Htrace & _).
  pose proof (worker_tail_quiet _ _ Htail) as Hquiet.
  rewrite status_calls_app, status_writes_app, (last_write_app_quiet _ _ Hquiet), Hquiet.
  assert (Hw : status_writes tail = []) by (destruct Htail; reflexivity).
  rewrite Hw, !app_nil_r. clear Hw Hquiet.
  intros Hin. apply in_app_or in Hin.
  destruct Hin as [Hin | Hin]; [|destruct Htail; absurd_in Hin].
  destruct Htrace as [p | p e ok | e ok | e ok]; try absurd_in Hin.
  simpl in Hin. destruct Hin as [Hin|[Hin|[Hin|[Hin|[Hin|[]]]]]]; try discriminate Hin.
  injection Hin as ->.
  split; [apply in_or_app; left; simpl; auto|].
  split; [reflexivity|].
  exists ok. split; [reflexivity | destruct ok; reflexivity].
Qed.

(** X6: the temporary file of an upload is never the record file of
    its own job, so the cleanup of the worker does not delete the
    record: when the last call of [write_status] of the worker
    returned, its record is in the store once the worker has finished. *)
Theorem worker_last_write_stored
    (file_id : string) (file : UploadFile) (w : world) (d : dict) :
  let tmp_path := tmp_path_of file_id file in
  let worker := upload_to_seedr_in_background json_dumps E file_id tmp_path in
  tmp_path <> status_path file_id /\
  (last_write (new_events worker w) = Some (d, true) ->
   files (final worker w) !! status_path file_id = Some (json_dumps (JDict d))).
Proof.
  intros tmp_path worker. subst worker.
  pose proof (tmp_path_status_path_ne file_id file) as Hne. fold tmp_path in Hne.
  split; [exact Hne|].
  destruct (worker_run file_id tmp_path w) as (tail & -> & Htail & _ & Hframe & _).
  rewrite (last_write_app_quiet _ _ (worker_tail_quiet _ _ Htail)).
  intros Hlast. rewrite Hframe by (intros Heq; apply Hne; symmetry; exact Heq).
  by apply worker_body_last_write_stored.
Qed.

(** *** From the accepted upload to the terminal record *)

Lemma upload_accepted (file : UploadFile) (w : world) (response : JSONResponse) :
  let file_id := uuid4 E w in
  let tmp_path := tmp_path_of file_id file in
  result (upload_file json_dumps E file) w = Returns response ->
  response = Response (JDict [("file_id", JStr file_id)]) 202 /\
  final (upload_file json_dumps E file) w
  = World (<[status_path file_id := json_dumps (JDict pending_record)]>
             (<[tmp_path := file_bytes file]> (files w)))
          (tasks w ++ [(file_id, tmp_path)])
          (log w ++ [EvUuid file_id; EvStage tmp_path true; EvAddTask file_id tmp_path;
                     EvStatusWrite file_id pending_record true]).
Proof.
  unfold tmp_path_of, status_path, pending_record. run_handler.
  all: intros Hres; try discriminate Hres.
  injection Hres as <-. split; [reflexivity|].
  unfold add_log, set_files, add_task_to; simpl. rewrite <- !app_assoc. reflexivity.
Qed.

Lemma terminal_truthy (d : dict) : terminal d = true -> truthy (JDict d) = true.
Proof. destruct d; [discriminate | reflexivity]. Qed.

Lemma worker_trace_all_returned (file_id tmp_path : string) (evs : list event) :
  worker_trace file_id tmp_path evs ->
  all_writes_returned evs = true ->
  exists d, terminal d = true /\ last_write evs = Some (d, true) /\
            status_writes evs = [(file_id, processing_record); (file_id, d)].
Proof.
  intros [p | p e ok | e ok | e ok]; simpl; try discriminate.
  - intros _. exists (completed_record p). split_and!; reflexivity.
  - destruct ok; [|discriminate]. intros _. exists failed_record. split_and!; reflexivity.
Qed.

(** X7: an upload that was accepted on an empty queue, followed by the
    run of its background task in which no status write raises: the
    records that reached the store are [pending], [processing] and one
    terminal record, all under the job id; the terminal record is
    stored and the queue is empty; the staged file is gone unless
    [os.remove] raised; the status query then returns that record with
    200, given that [json.load] reads it back. *)
Theorem accepted_upload_reaches_terminal
    (file : UploadFile) (w : world) (response : JSONResponse) :
  let file_id := uuid4 E w in
  let w1 := final (upload_file json_dumps E file) w in
  let w2 := final (run_background_task json_dumps E) w1 in
  tasks w = [] ->
  result (upload_file json_dumps E file) w = Returns response ->
  all_writes_returned (new_events (run_background_task json_dumps E) w1) = true ->
  exists d,
    terminal d = true /\
    status_writes (drop (length (log w)) (log w2))
    = [(file_id, pending_record); (file_id, processing_record); (file_id, d)] /\
    files w2 !! status_path file_id = Some (json_dumps (JDict d)) /\
    (~ In (EvRemove (tmp_path_of file_id file) false)
          (new_events (run_background_task json_dumps E) w1) ->
     files w2 !! tmp_path_of file_id file = None) /\
    tasks w2 = [] /\
    (json_loads (json_dumps (JDict d)) = Some (JDict d) ->
     get_upload_status json_loads file_id w2 = (Returns (Response (JDict d) 200), w2)).
Proof.
  intros file_id w1 w2 Hqueue Hres.
  destruct (upload_accepted file w response Hres) as [_ Hw1].
  fold file_id w1 in Hw1. rewrite Hqueue in Hw1. simpl in Hw1.
  subst w2. clearbody w1. subst w1.
  set (tmp_path := tmp_path_of file_id file) in *.
  match goal with
  | |- context [final _ (World ?f _ ?l)] => set (w1' := World f [] l)
  end.
  match goal with
  | |- context [final _ ?w1] => set (w2 := final (run_background_task json_dumps E) w1)
  end.
  assert (Hw2 : w2 = final (upload_to_seedr_in_background json_dumps E file_id tmp_path) w1')
    by reflexivity.
  match goal with
  | |- context [new_events _ ?w1] =>
      assert (Hev : new_events (run_background_task json_dumps E) w1
                    = new_events (upload_to_seedr_in_background json_dumps E
                                    file_id tmp_path) w1')
        by reflexivity
  end.
  rewrite Hev. clear Hev. intros Hall.
  destruct (worker_run file_id tmp_path w1')
    as (tail & Hevs & Htail & Htrace & Hfiles & Htasks & Hok & _ & Hlog).
  pose proof (remove_raised_last _ _ _ _ Htrace Htail) as Hraised.
  rewrite Hevs, all_writes_returned_app in Hall.
  apply andb_prop in Hall as [Hall _].
  destruct (worker_trace_all_returned _ _ _ Htrace Hall) as (d & Hterm & Hlast & Hws).
  pose proof (worker_body_last_write_stored file_id tmp_path w1' d Hlast) as Hstored.
  pose proof (tmp_path_status_path_ne file_id file) as Hne. fold tmp_path in Hne.
  destruct (worker_body_frame file_id tmp_path w1') as [_ Hq].
  assert (Hrec : files w2 !! status_path file_id = Some (json_dumps (JDict d))).
  { rewrite Hw2, Hfiles by (intros Heq; apply Hne; symmetry; exact Heq).
    exact Hstored. }
  exists d. split_and!; [exact Hterm | | exact Hrec | | |].
  - rewrite Hw2, Hlog, Hevs. subst w1'. simpl log.
    rewrite <- !app_assoc, drop_log_app, !status_writes_app, Hws.
    destruct Htail; reflexivity.
  - rewrite Hevs, Hw2. intros Hnot. apply Hok. intros Heq. apply Hnot. by apply Hraised.
  - rewrite Hw2, Htasks, Hq. reflexivity.
  - intros Hcodec. unfold get_upload_status, bind.
    rewrite (read_status_present _ _ _ Hrec), Hcodec, (terminal_truthy _ Hterm).
    reflexivity.
Qed.

(** *** The status query, continued *)

Lemma get_upload_status_run (file_id : string) (w : world) :
  final (get_upload_status json_loads file_id) w = w.
Proof.
  unfold final, get_upload_status, bind.
  destruct (files w !! status_path file_id) as [text|] eqn:Hf.
  - rewrite (read_status_present _ _ _ Hf).
    destruct (json_loads text) as [v|]; [destruct (truthy v)|]; reflexivity.
  - rewrite (read_status_missing _ _ Hf). reflexivity.
Qed.

Lemma serve_run (handler : M JSONResponse) (w : world) :
  serve handler w
  = match handler w with
    | (Returns response, w') => (Returns response, w')
    | (Raises e, w') =>
        (Returns internal_error_response,
         World (files w') (tasks w) (log w' ++ [EvLogError (unhandled_msg e)]))
    end.
Proof.
  unfold serve, generic_exception_handler, bind, logger_error, emit, ret.
  destruct (handler w) as [[response|e] w']; reflexivity.
Qed.

(** X8: the status query is a pure read: whatever it finds (no record,
    a record, a falsy record, a text that is not JSON) the world after
    the handler is the world before it, and behind the exception
    handler the files and the task queue are unchanged. *)
Theorem status_query_read_only (file_id : string) (w : world) :
  final (get_upload_status json_loads file_id) w = w /\
  files (final (serve (get_upload_status json_loads file_id)) w) = files w /\
  tasks (final (serve (get_upload_status json_loads file_id)) w) = tasks w.
Proof.
  pose proof (get_upload_status_run file_id w) as Hrun.
  split; [exact Hrun|].
  unfold final in *. rewrite serve_run.
  destruct (get_upload_status json_loads file_id w) as [[response|e] w'];
    simpl in *; subst w'; split; reflexivity.
Qed.

(** X9: when the file of a job holds a text that [json.load] rejects
    (a write that raised midway leaves one), the status query raises
    [JSONDecodeError] and the client is answered 500, not 404 and not
    an older record. *)
Theorem status_query_corrupt_record (file_id text : string) (w : world) :
  files w !! status_path file_id = Some text ->
  json_loads text = None ->
  result (get_upload_status json_loads file_id) w = Raises (Exception "JSONDecodeError") /\
  result (serve (get_upload_status json_loads file_id)) w
  = Returns internal_error_response.
Proof.
  intros Hf Hload.
  assert (Hraise : get_upload_status json_loads file_id w
                   = (Raises (Exception "JSONDecodeError"), w)).
  { unfold get_upload_status, bind.
    rewrite (read_status_present _ _ _ Hf), Hload. reflexivity. }
  unfold result. rewrite serve_run, Hraise. split; reflexivity.
Qed.

(** *** The dispatcher when the [pending] record cannot be written *)

(** X10: when the bytes were staged but writing the [pending] record
    raises, the client is answered 500, no record reached the store,
    and the staged file is still on disk: the handler does not remove
    it. *)
Theorem pending_write_failure (file : UploadFile) (w : world) :
  let handler := upload_file json_dumps E file in
  let file_id := uuid4 E w in
  In (EvStatusWrite file_id pending_record false) (new_events handler w) ->
  result (serve handler) w = Returns internal_error_response /\
  status_writes (new_events handler w) = [] /\
  files (final (serve handler) w) !! tmp_path_of file_id file = Some (file_bytes file).
Proof.
  intros handler file_id. subst handler.
  pose proof (tmp_path_status_path_ne file_id file) as Hne.
  unfold result, final. rewrite serve_run.
  revert Hne. unfold tmp_path_of, status_path, pending_record. run_handler.
  all: rewrite <- ?app_assoc, drop_log_app; simpl; intros Hne Hin; try absurd_in Hin.
  all: split_and!; try reflexivity.
  - rewrite lookup_insert_ne by (intros Heq; apply Hne; symmetry; exact Heq).
    apply lookup_insert_eq.
  - apply lookup_insert_eq.
Qed.

(** *** Routes and status codes *)

Lemma route_codes_sound (r : request) (w : world) (response : JSONResponse) :
  result (route json_dumps json_loads E r) w = Returns response ->
  In (status_code response) (route_codes r).
Proof.
  destruct r as [|file|file_id|magnet| |file_id|item_id item_type];
    unfold route, read_root, add_torrent, list_files, get_status.
  - run_handler. intros [= <-]. simpl. auto.
  - run_handler; intros Hres; try discriminate Hres.
    injection Hres as <-. simpl. auto.
  - unfold result, get_upload_status, bind.
    destruct (files w !! status_path file_id) as [text|] eqn:Hf.
    + rewrite (read_status_present _ _ _ Hf).
      destruct (json_loads text) as [v|]; [destruct (truthy v)|]; simpl;
        intros Hres; try discriminate Hres; injection Hres as <-; simpl; auto.
    + rewrite (read_status_missing _ _ Hf). simpl. intros [= <-]. simpl. auto.
  - run_handler; intros Hres; try discriminate Hres. injection Hres as <-. simpl. auto.
  - run_handler; intros Hres; try discriminate Hres. injection Hres as <-. simpl. auto.
  - destruct file_id as [[|c file_id]|];
      run_handler; intros Hres; try discriminate Hres; injection Hres as <-; simpl; auto.
  - unfold delete_item_route, delete_item.
    destruct (String.eqb (default "file" item_type) "file");
      [|destruct (String.eqb (default "file" item_type) "folder")];
      run_handler; intros Hres; try discriminate Hres; injection Hres as <-; simpl; auto.
Qed.

(** X11: every request is answered.  When the handler of the route
    returns, the answer is its response and carries a status code of
    that route (202 for an upload, 200 or 404 for a status query, 200
    or 400 for a delete, 200 otherwise); when it raises, the answer is
    the fixed 500 response and the text of the exception goes to the
    log only. *)
Theorem every_request_answered (r : request) (w : world) :
  let handler := route json_dumps json_loads E r in
  match result handler w with
  | Returns response =>
      result (serve handler) w = Returns response /\
      In (status_code response) (route_codes r)
  | Raises e =>
      result (serve handler) w = Returns internal_error_response /\
      In (EvLogError (unhandled_msg e)) (log (final (serve handler) w))
  end.
Proof.
  intros handler. subst handler.
  pose proof (route_codes_sound r w) as Hcodes.
  unfold result, final in *. rewrite serve_run.
  destruct (route json_dumps json_loads E r w) as [[response|e] w']; simpl in *.
  - split; [reflexivity | by apply Hcodes].
  - split; [reflexivity | apply in_or_app; right; left; reflexivity].
Qed.

Lemma route_local (r : request) (w : world) :
  is_upload r = false ->
  files (final (route json_dumps json_loads E r) w) = files w /\
  tasks (final (route json_dumps json_loads E r) w) = tasks w /\
  status_calls (new_events (route json_dumps json_loads E r) w) = [].
Proof.
  destruct r as [|file|file_id|magnet| |file_id|item_id item_type];
    unfold route, read_root, add_torrent, list_files, get_status; intros Hup.
  - run_handler. rewrite drop_all. auto.
  - discriminate.
  - unfold new_events. pose proof (get_upload_status_run file_id w) as Hrun.
    unfold final in *. rewrite Hrun, drop_all. auto.
  - run_handler; rewrite <- ?app_assoc, ?drop_log_app; auto.
  - run_handler; rewrite <- ?app_assoc, ?drop_log_app; auto.
  - destruct file_id as [[|c file_id]|];
      run_handler; rewrite <- ?app_assoc, ?drop_log_app; auto.
  - unfold delete_item_route, delete_item.
    destruct (String.eqb (default "file" item_type) "file");
      [|destruct (String.eqb (default "file" item_type) "folder")];
      run_handler; rewrite <- ?app_assoc, ?drop_log_app, ?drop_all; auto.
Qed.

(** X12: only an upload changes the local state.  A request on any
    other route, answered by its handler or by the exception handler,
    leaves the files and the task queue as they were and does not call
    [write_status]. *)
Theorem other_routes_read_only (r : request) (w : world) :
  is_upload r = false ->
  files (final (serve (route json_dumps json_loads E r)) w) = files w /\
  tasks (final (serve (route json_dumps json_loads E r)) w) = tasks w /\
  status_calls (new_events (route json_dumps json_loads E r) w) = [].
Proof.
  intros Hup. destruct (route_local r w Hup) as (Hfiles & Htasks & Hcalls).
  unfold final in *. rewrite serve_run.
  destruct (route json_dumps json_loads E r w) as [[response|e] w']; simpl in *; auto.
Qed.

(** X13: the three proxy routes make one call of the provider and pass
    its answer on: the payload with 200, or the exception.  A
    [file_id] that is missing or empty makes [GET /status] list the
    contents; any other asks for that file. *)
Theorem proxy_routes (magnet : string) (file_id : option string) (w : world) :
  let answer (call : remote_call) :=
    (match remote E w call with
     | Returns payload => Returns (Response payload 200)
     | Raises e => Raises e
     end, add_log (EvRemote call (remote E w call)) w) in
  add_torrent E magnet w = answer (Add_torrent magnet) /\
  list_files E w = answer List_contents /\
  get_status E file_id w = answer (get_status_call file_id) /\
  (get_status_call file_id = List_contents <->
   file_id = None \/ file_id = Some EmptyString).
Proof.
  split_and!.
  - unfold add_torrent, bind, seedr, ret. simpl.
    destruct (remote E w (Add_torrent magnet)); reflexivity.
  - unfold list_files, bind, seedr, ret. simpl.
    destruct (remote E w List_contents); reflexivity.
  - unfold get_status, get_status_call, bind, seedr, ret.
    destruct file_id as [[|c s]|]; simpl;
      match goal with |- context [remote E w ?c] => destruct (remote E w c) end;
      reflexivity.
  - destruct file_id as [[|c s]|]; simpl; split; auto; try discriminate.
    intros [H | H]; discriminate H.
Qed.

(** *** The task queue *)

Lemma worker_trace_keys (file_id tmp_path : string) (evs : list event) :
  worker_trace file_id tmp_path evs ->
  Forall (fun kd : string * dict => kd.1 = file_id) (status_calls evs) /\
  issued evs = [].
Proof.
  intros [p | p e ok | e ok | e ok]; simpl; split; try reflexivity;
    repeat (apply Forall_cons_2; [reflexivity|]); apply Forall_nil_2.
Qed.

Lemma issued_app (l k : list event) : issued (l ++ k) = issued l ++ issued k.
Proof.
  induction l as [|ev l IH]; [reflexivity|].
  destruct ev; simpl; rewrite ?IH; reflexivity.
Qed.

Lemma task_run (file_id tmp_path : string) (rest : list (string * string)) (w : world) :
  tasks w = (file_id, tmp_path) :: rest ->
  let m := run_background_task json_dumps E in
  let worker := upload_to_seedr_in_background json_dumps E file_id tmp_path in
  let w' := World (files w) rest (log w) in
  m w = worker w' /\ new_events m w = new_events worker w'.
Proof.
  intros Htasks. unfold new_events, run_background_task. rewrite Htasks.
  split; reflexivity.
Qed.

(** *** Job ids along the runs of the service *)

Lemma issued_In (l : list event) (file_id : string) :
  In file_id (issued l) <-> In (EvUuid file_id) l.
Proof.
  induction l as [|ev l IH]; [reflexivity|].
  destruct ev; simpl; rewrite IH; split;
    try (intros [Heq | Hin]; [discriminate Heq | exact Hin]);
    try (intros Hin; right; exact Hin).
  - intros [-> | Hin]; auto.
  - intros [[= ->] | Hin]; auto.
Qed.

Lemma step_adds_none (w w' : world) (evs : list event) :
  log w' = log w ++ evs -> status_calls evs = [] -> tasks w' = tasks w ->
  step_adds None w w'.
Proof.
  intros Hlog Hcalls Htasks. exists evs. rewrite Hcalls, Htasks.
  split_and!; [exact Hlog | apply Forall_nil_2 | left; apply incl_refl].
Qed.

Lemma upload_step (file : UploadFile) (w : world) :
  step_adds None w (final (serve (upload_file json_dumps E file)) w).
Proof.
  unfold final. rewrite serve_run. unfold tmp_path_of.
  assert (Hfinish : forall (w' : world) (evs : list event),
            log w' = log w ++ EvUuid (uuid4 E w) :: evs ->
            Forall (fun kd : string * dict => kd.1 = uuid4 E w)
                   (status_calls evs) ->
            tasks w' = tasks w \/
            tasks w' = tasks w ++ [(uuid4 E w, tmp_path_of (uuid4 E w) file)] ->
            step_adds None w w').
  { intros w' evs Hlog Hcalls Htasks. exists (EvUuid (uuid4 E w) :: evs).
    split_and!; [exact Hlog | |].
    - simpl. eapply Forall_impl; [exact Hcalls|]. intros [k d] Hk. simpl in *.
      left. left. symmetry. exact Hk.
    - destruct Htasks as [-> | ->]; [left; apply incl_refl|].
      right. exists (uuid4 E w), file. split; [reflexivity | left; reflexivity]. }
  unfold tmp_path_of in Hfinish. run_handler.
  all: eapply Hfinish;
    [ unfold add_log, add_task_to, set_files; simpl; rewrite <- ?app_assoc; reflexivity
    | simpl; repeat (apply Forall_cons_2; [reflexivity|]); apply Forall_nil_2
    | simpl; auto ].
Qed.

Lemma route_log (r : request) (w : world) :
  log (final (route json_dumps json_loads E r) w)
  = log w ++ new_events (route json_dumps json_loads E r) w.
Proof.
  assert (Hfinish : forall l k : list event, l ++ k = l ++ drop (length l) (l ++ k))
    by (intros l k; rewrite drop_log_app; reflexivity).
  assert (Hnone : forall l : list event, l = l ++ drop (length l) l)
    by (intros l; rewrite drop_all, app_nil_r; reflexivity).
  destruct r as [|file|file_id|magnet| |file_id|item_id item_type];
    unfold route, read_root, add_torrent, list_files, get_status.
  - run_handler. apply Hnone.
  - run_handler; rewrite <- ?app_assoc; apply Hfinish.
  - unfold new_events. pose proof (get_upload_status_run file_id w) as Hrun.
    unfold final in *. rewrite Hrun. apply Hnone.
  - run_handler; rewrite <- ?app_assoc; apply Hfinish.
  - run_handler; rewrite <- ?app_assoc; apply Hfinish.
  - destruct file_id as [[|c file_id]|];
      run_handler; rewrite <- ?app_assoc; apply Hfinish.
  - unfold delete_item_route, delete_item.
    destruct (String.eqb (default "file" item_type) "file");
      [|destruct (String.eqb (default "file" item_type) "folder")];
      run_handler; rewrite <- ?app_assoc; solve [apply Hnone | apply Hfinish].
Qed.

Lemma request_step_adds (r : request) (w : world) :
  step_adds None w (final (serve (route json_dumps json_loads E r)) w).
Proof.
  destruct (is_upload r) eqn:Hup.
  - destruct r; try discriminate Hup. apply upload_step.
  - destruct (route_local r w Hup) as (_ & Htasks & Hcalls).
    pose proof (route_log r w) as Hlog.
    unfold final in *. rewrite serve_run.
    destruct (route json_dumps json_loads E r w) as [[response|e] w'] eqn:Hrun;
      simpl in *.
    + eapply step_adds_none; [exact Hlog | exact Hcalls | exact Htasks].
    + eapply (step_adds_none _ _ (_ ++ [EvLogError (unhandled_msg e)])).
      * simpl. rewrite Hlog, <- app_assoc. reflexivity.
      * rewrite status_calls_app, Hcalls. reflexivity.
      * reflexivity.
Qed.

Lemma task_step_adds (w : world) :
  ids_issued w ->
  exists key,
    (key = None \/ exists file_id, key = Some file_id /\ In file_id (issued (log w))) /\
    step_adds key w (final (run_background_task json_dumps E) w).
Proof.
  intros [_ Hq]. destruct (tasks w) as [|[file_id tmp_path] rest] eqn:Htasks.
  - exists None. split; [left; reflexivity|].
    unfold final, run_background_task. rewrite Htasks.
    eapply (step_adds_none _ _ []); [rewrite app_nil_r|..]; reflexivity.
  - exists (Some file_id). split.
    { right. exists file_id. split; [reflexivity|].
      apply Forall_cons_1 in Hq as [[Hid _] _]. exact Hid. }
    destruct (task_run file_id tmp_path rest w Htasks) as [Hrun _].
    unfold final. rewrite Hrun.
    destruct (worker_run file_id tmp_path (World (files w) rest (log w)))
      as (tail & Hev & Htail & Htrace & _ & Hts & _ & _ & Hlog).
    destruct (worker_body_frame file_id tmp_path (World (files w) rest (log w)))
      as [_ Hts'].
    unfold final in *. simpl in *.
    eexists. split_and!; [exact Hlog | |].
    + rewrite Hev, status_calls_app, (worker_tail_quiet _ _ Htail), app_nil_r.
      eapply Forall_impl; [apply (worker_trace_keys _ _ _ Htrace)|].
      intros [k d] Hk. simpl in *. right. congruence.
    + left. rewrite Hts, Hts', Htasks. apply incl_tl, incl_refl.
Qed.

Lemma step_adds_keeps (key : option string) (w w' : world) :
  (key = None \/ exists file_id, key = Some file_id /\ In file_id (issued (log w))) ->
  ids_issued w -> step_adds key w w' -> ids_issued w'.
Proof.
  intros Hkey [Hcalls Hq] (evs & Hlog & Hnew & Htasks).
  assert (Hmono : forall file_id, In file_id (issued (log w)) ->
                                  In file_id (issued (log w')))
    by (intros file_id Hin; rewrite Hlog, issued_app; apply in_or_app; auto).
  assert (Hadded : forall file_id, In file_id (issued evs) ->
                                   In file_id (issued (log w')))
    by (intros file_id Hin; rewrite Hlog, issued_app; apply in_or_app; auto).
  split.
  - rewrite Hlog at 1. rewrite status_calls_app. apply Forall_app_2.
    + eapply Forall_impl; [exact Hcalls|]. intros kd. apply Hmono.
    + eapply Forall_impl; [exact Hnew|]. intros kd [Hin | Hk]; [by apply Hadded|].
      destruct Hkey as [-> | (file_id & -> & Hin)]; [discriminate|].
      injection Hk as ->. by apply Hmono.
  - assert (Hold : Forall (fun t : string * string =>
                     In t.1 (issued (log w')) /\ exists file, t.2 = tmp_path_of t.1 file)
                     (tasks w)).
    { eapply Forall_impl; [exact Hq|]. intros t [Hin Hfile]. split; [by apply Hmono | exact Hfile]. }
    destruct Htasks as [Hincl | (file_id & file & -> & Hin)].
    + rewrite Forall_forall in Hold |- *. intros t Ht. apply Hold.
      apply list_elem_of_In. apply Hincl. by apply list_elem_of_In.
    + apply Forall_app_2; [exact Hold|]. apply Forall_cons_2; [|apply Forall_nil_2].
      simpl. split; [by apply Hadded | by exists file].
Qed.

Lemma reachable_ids_issued (w : world) :
  reachable json_dumps json_loads E w -> ids_issued w.
Proof.
  intros Hreach. induction Hreach as [w [Hlog Htasks] | w w' _ IH Hstep].
  - split; rewrite ?Hlog, ?Htasks; apply Forall_nil_2.
  - destruct Hstep as [r w | w].
    + eapply step_adds_keeps; [left; reflexivity | exact IH | apply request_step_adds].
    + destruct (task_step_adds w IH) as (key & Hkey & Hadds).
      eapply step_adds_keeps; eassumption.
Qed.

Lemma status_call_of_event (l : list event) (file_id : string) (record : dict) (ok : bool) :
  In (EvStatusWrite file_id record ok) l -> In (file_id, record) (status_calls l).
Proof.
  induction l as [|ev l IH]; [contradiction|].
  intros [-> | Hin]; [simpl; left; reflexivity|].
  specialize (IH Hin). destruct ev; simpl; auto.
Qed.

(** C4 (amended): a request that succeeds has, in this order, drawn a
    job id, staged the bytes at the path made of the id and the filename
    hint, enqueued the worker for that id and path, and written the
    [pending] record; it answers 202 with the id.  The id is fresh: in
    a world the service reached, when [uuid4] returns an id it has not
    returned before, no record was written and no task was queued under
    that id before the request. *)
Theorem dispatch_order (file : UploadFile) (w : world) (response : JSONResponse) :
  let handler := upload_file json_dumps E file in
  let file_id := uuid4 E w in
  let tmp_path := tmp_path_of file_id file in
  result handler w = Returns response ->
  (new_events handler w
   = [EvUuid file_id; EvStage tmp_path true; EvAddTask file_id tmp_path;
      EvStatusWrite file_id pending_record true] /\
   response = Response (JDict [("file_id", JStr file_id)]) 202 /\
   tasks (final handler w) = (tasks w ++ [(file_id, tmp_path)])%list /\
   files (final handler w)
   = <[status_path file_id := json_dumps (JDict pending_record)]>
       (<[tmp_path := file_bytes file]> (files w))) /\
  (reachable json_dumps json_loads E w ->
   ~ In (EvUuid file_id) (log w) ->
   (forall record ok, ~ In (EvStatusWrite file_id record ok) (log w)) /\
   (forall queued_path, ~ In (file_id, queued_path) (tasks w))).
Proof.
  intros handler file_id tmp_path Hres. split.
  - subst handler file_id tmp_path. revert Hres.
    unfold tmp_path_of, status_path, pending_record. run_handler.
    all: rewrite <- ?app_assoc, drop_log_app; simpl; intros Hres; try discriminate.
    injection Hres as <-. split_and!; reflexivity.
  - intros Hreach Hfresh.
    destruct (reachable_ids_issued w Hreach) as [Hcalls Hq].
    rewrite Forall_forall in Hcalls. rewrite Forall_forall in Hq. split.
    + intros record ok Hin. apply Hfresh, issued_In.
      apply (Hcalls (file_id, record)), list_elem_of_In.
      by apply (status_call_of_event _ _ _ ok).
    + intros queued_path Hin. apply Hfresh, issued_In.
      by apply (Hq (file_id, queued_path)), list_elem_of_In.
Qed.

(** X14: in every world the service reaches, each call of
    [write_status] is under a job id that the dispatcher drew from
    [uuid4], and each queued task is for such an id and for the
    temporary path of an upload under that id, which is not the record
    file of the job. *)
Theorem only_issued_ids (w : world) :
  reachable json_dumps json_loads E w ->
  (forall file_id record ok,
     In (EvStatusWrite file_id record ok) (log w) -> In (EvUuid file_id) (log w)) /\
  (forall file_id tmp_path,
     In (file_id, tmp_path) (tasks w) ->
     In (EvUuid file_id) (log w) /\
     (exists file, tmp_path = tmp_path_of file_id file) /\
     tmp_path <> status_path file_id).
Proof.
  intros Hreach.
  destruct (reachable_ids_issued w Hreach) as [Hcalls Hq]. split.
  - intros file_id record ok Hin. apply issued_In.
    rewrite Forall_forall in Hcalls. apply (Hcalls (file_id, record)).
    apply list_elem_of_In. clear -Hin.
    induction (log w) as [|ev l IH]; [contradiction|].
    destruct Hin as [-> | Hin]; [simpl; left; reflexivity|].
    specialize (IH Hin). destruct ev; simpl; auto.
  - intros file_id tmp_path Hin. rewrite Forall_forall in Hq.
    destruct (Hq (file_id, tmp_path)) as [Hid [file Hfile]];
      [by apply list_elem_of_In|].
    simpl in *. split_and!; [by apply issued_In | by exists file |].
    rewrite Hfile. apply tmp_path_status_path_ne.
Qed.

End Properties.

(** * The properties on concrete runs *)

Example status_path_j1 : status_path "j1" = "/tmp/upload_statuses/j1.json".
Proof. reflexivity. Qed.

Example status_path_absolute_id : status_path "/etc/x" = "/etc/x.json".
Proof. reflexivity. Qed.

Example tmp_path_without_filename :
  tmp_path_of "job-0" (Upload None "bytes") = "/tmp/job-0-None".
Proof. reflexivity. Qed.

Example codec_reads_back_completed :
  PyJson.loads (PyJson.dumps (JDict (completed_record sample_payload)))
  = Some (JDict (completed_record sample_payload)).
Proof. vm_compute. reflexivity. Qed.

Example codec_rejects_truncated_text : PyJson.loads "{" = None.
Proof. vm_compute. reflexivity. Qed.

Example worker_ok_events :
  new_events worker_ok staged_world
  = [EvStatusWrite "j1" processing_record true;
     EvRemote (Upload_file "/tmp/j1-a.bin") (Returns sample_payload);
     EvStatusWrite "j1" (completed_record sample_payload) true;
     EvRemove "/tmp/j1-a.bin" true].
Proof. vm_compute. reflexivity. Qed.

Example worker_refused_events :
  new_events worker_refused staged_world
  = [EvStatusWrite "j1" processing_record true;
     EvRemote (Upload_file "/tmp/j1-a.bin") (Raises (Exception "HTTP 401 token=s3cr3t"));
     EvLogError "Upload failed for file_id j1: HTTP 401 token=s3cr3t";
     EvStatusWrite "j1" failed_record true;
     EvRemove "/tmp/j1-a.bin" true].
Proof. vm_compute. reflexivity. Qed.

Example worker_unwritten_events :
  new_events worker_unwritten staged_world
  = [EvStatusWrite "j1" processing_record false;
     EvLogError "Upload failed for file_id j1: OSError: [Errno 28] No space left on device";
     EvStatusWrite "j1" failed_record true;
     EvRemove "/tmp/j1-a.bin" true].
Proof. vm_compute. reflexivity. Qed.

(** With no failing write, the worker of [j1] writes [processing] and
    then [completed]. *)
Lemma worker_write_sequence_witness :
  all_writes_returned (new_events worker_ok staged_world) = true /\
  processing_then_terminal "j1" (status_writes (new_events worker_ok staged_world)) = true.
Proof.
  assert (H : all_writes_returned (new_events worker_ok staged_world) = true)
    by (vm_compute; reflexivity).
  split; [exact H|].
  exact (proj2 (worker_write_sequence PyJson.dumps env_ok "j1" "/tmp/j1-a.bin" staged_world) H).
Defined.

(** When the write of [processing] raises and the next write succeeds,
    the only record that reaches the store is [failed]: [processing] is
    skipped. *)
Lemma worker_skips_processing :
  status_writes (new_events worker_unwritten staged_world) = [("j1", failed_record)] /\
  processing_then_terminal "j1" (status_writes (new_events worker_unwritten staged_world))
  = false.
Proof. split; vm_compute; reflexivity. Qed.

(** The staged file of [j1] is gone after the worker, whether the upload
    returned, the upload raised, or the first status write raised. *)
Lemma worker_removes_tmp_file_example :
  files staged_world !! "/tmp/j1-a.bin" = Some "bytes" /\
  ~ In (EvRemove "/tmp/j1-a.bin" false) (new_events worker_ok staged_world) /\
  files (final worker_ok staged_world) !! "/tmp/j1-a.bin" = None /\
  files (final worker_refused staged_world) !! "/tmp/j1-a.bin" = None /\
  files (final worker_unwritten staged_world) !! "/tmp/j1-a.bin" = None.
Proof.
  assert (H1 : ~ In (EvRemove "/tmp/j1-a.bin" false) (new_events worker_ok staged_world))
    by (vm_compute; intros H; absurd_in H).
  assert (H2 : ~ In (EvRemove "/tmp/j1-a.bin" false)
                 (new_events worker_refused staged_world))
    by (vm_compute; intros H; absurd_in H).
  assert (H3 : ~ In (EvRemove "/tmp/j1-a.bin" false)
                 (new_events worker_unwritten staged_world))
    by (vm_compute; intros H; absurd_in H).
  split_and!; [reflexivity | exact H1 | | |].
  - exact (proj1 (worker_removes_tmp_file PyJson.dumps env_ok "j1" "/tmp/j1-a.bin"
                    staged_world) H1).
  - exact (proj1 (worker_removes_tmp_file PyJson.dumps env_upload_raises "j1"
                    "/tmp/j1-a.bin" staged_world) H2).
  - exact (proj1 (worker_removes_tmp_file PyJson.dumps env_first_write_raises "j1"
                    "/tmp/j1-a.bin" staged_world) H3).
Defined.

(** When [os.remove] raises in the cleanup, the upload is recorded as
    [completed], the worker ends with the exception and the staged file
    is still on disk. *)
Lemma worker_leaves_tmp_file :
  status_writes (new_events worker_remove_raises staged_world)
  = [("j1", processing_record); ("j1", completed_record sample_payload)] /\
  result worker_remove_raises staged_world
  = Raises (Exception "PermissionError: [Errno 13] Permission denied") /\
  files (final worker_remove_raises staged_world) !! "/tmp/j1-a.bin" = Some "bytes".
Proof. split_and!; vm_compute; reflexivity. Qed.

(** The disk is full while staging: no record, no task, a 500. *)
Lemma staging_failure_witness :
  In (EvStage "/tmp/job-0-a.bin" false) (new_events upload_disk_full empty_world) /\
  status_calls (new_events upload_disk_full empty_world) = [] /\
  tasks (final upload_disk_full empty_world) = [] /\
  result (serve upload_disk_full) empty_world = Returns internal_error_response.
Proof.
  assert (H : In (EvStage "/tmp/job-0-a.bin" false)
                 (new_events upload_disk_full empty_world))
    by (vm_compute; auto).
  destruct (staging_failure PyJson.dumps env_disk_full sample_upload empty_world
              "/tmp/job-0-a.bin" H) as (_ & _ & Hcalls & Htasks & _ & Hserved).
  split_and!; assumption.
Defined.

(** The events of one accepted upload. *)
Lemma dispatch_order_witness :
  result upload_ok empty_world
  = Returns (Response (JDict [("file_id", JStr "job-0")]) 202) /\
  reachable PyJson.dumps PyJson.loads env_ok empty_world /\
  ~ In (EvUuid "job-0") (log empty_world) /\
  new_events upload_ok empty_world
  = [EvUuid "job-0"; EvStage "/tmp/job-0-a.bin" true;
     EvAddTask "job-0" "/tmp/job-0-a.bin";
     EvStatusWrite "job-0" pending_record true] /\
  (forall queued_path, ~ In ("job-0", queued_path) (tasks empty_world)).
Proof.
  assert (H : result upload_ok empty_world
              = Returns (Response (JDict [("file_id", JStr "job-0")]) 202))
    by (vm_compute; reflexivity).
  assert (Hreach : reachable PyJson.dumps PyJson.loads env_ok empty_world)
    by (apply reachable_initial; split; reflexivity).
  assert (Hfresh : ~ In (EvUuid "job-0") (log empty_world)) by (simpl; auto).
  destruct (dispatch_order PyJson.dumps PyJson.loads env_ok sample_upload empty_world _ H)
    as [(Hevs & _) Hnew].
  split_and!; [exact H | exact Hreach | exact Hfresh | exact Hevs |].
  exact (proj2 (Hnew Hreach Hfresh)).
Defined.

(** A request that succeeds enqueued the worker before it wrote the
    [pending] record, not after. *)
Lemma enqueue_precedes_pending_write :
  result upload_ok empty_world
  = Returns (Response (JDict [("file_id", JStr "job-0")]) 202) /\
  position is_add_task (new_events upload_ok empty_world) = Some 2%nat /\
  position is_pending_write (new_events upload_ok empty_world) = Some 3%nat /\
  pending_written_before_enqueue (new_events upload_ok empty_world) = false.
Proof. split_and!; vm_compute; reflexivity. Qed.

(** The provider answers with an error that carries a token: the calls
    of [write_status] do not mention it. *)
Lemma upload_exception_not_recorded_witness :
  In (EvRemote (Upload_file "/tmp/j1-a.bin") (Raises (Exception "HTTP 401 token=s3cr3t")))
     (new_events worker_refused staged_world) /\
  status_calls (new_events worker_refused staged_world)
  = [("j1", processing_record); ("j1", failed_record)].
Proof.
  assert (H : In (EvRemote (Upload_file "/tmp/j1-a.bin")
                    (Raises (Exception "HTTP 401 token=s3cr3t")))
                 (new_events worker_refused staged_world))
    by (vm_compute; auto).
  split; [exact H|].
  destruct (upload_exception_not_recorded PyJson.dumps env_upload_raises
              "j1" "/tmp/j1-a.bin" staged_world _ H) as (_ & _ & _ & Hcalls & _).
  exact Hcalls.
Defined.

(** The status query on an unknown id, and on the [pending] record. *)
Lemma status_query_witness :
  (files empty_world !! status_path "j1" = None /\
   get_upload_status PyJson.loads "j1" empty_world
   = (Returns not_found_response, empty_world)) /\
  (files pending_world !! status_path "j1" = Some (PyJson.dumps (JDict pending_record)) /\
   PyJson.loads (PyJson.dumps (JDict pending_record)) = Some (JDict pending_record) /\
   job_record pending_record = true /\
   get_upload_status PyJson.loads "j1" pending_world
   = (Returns (Response (JDict pending_record) 200), pending_world)).
Proof.
  assert (H0 : files empty_world !! status_path "j1" = None) by reflexivity.
  assert (H1 : files pending_world !! status_path "j1"
               = Some (PyJson.dumps (JDict pending_record)))
    by (vm_compute; reflexivity).
  assert (H2 : PyJson.loads (PyJson.dumps (JDict pending_record))
               = Some (JDict pending_record))
    by (vm_compute; reflexivity).
  assert (H3 : job_record pending_record = true) by reflexivity.
  split.
  - split; [exact H0|].
    exact (proj2 (proj1 (status_query PyJson.loads "j1" empty_world) H0)).
  - split_and!; try assumption.
    exact (proj1 (proj2 (status_query PyJson.loads "j1" pending_world)) _ _ H1 H2 H3).
Defined.

(** The [completed] record of the log after an upload and its task. *)
Lemma written_records_witness :
  reachable PyJson.dumps PyJson.loads env_ok processed_world /\
  In (EvStatusWrite "job-0" (completed_record sample_payload) true)
     (log processed_world) /\
  record_wf (completed_record sample_payload).
Proof.
  assert (Hreach : reachable PyJson.dumps PyJson.loads env_ok processed_world).
  { apply (reachable_step _ _ _ uploaded_world processed_world).
    - apply (reachable_step _ _ _ empty_world uploaded_world).
      + apply reachable_initial. split; reflexivity.
      + apply step_request.
    - apply step_task. }
  assert (Hin : In (EvStatusWrite "job-0" (completed_record sample_payload) true)
                   (log processed_world))
    by (vm_compute; auto 10).
  split_and!; [exact Hreach | exact Hin |].
  exact (written_records_well_formed PyJson.dumps PyJson.loads env_ok processed_world
           Hreach _ _ _ Hin).
Defined.

(** Writing the [pending] record of [j1] and reading it back. *)
Lemma read_after_write_witness :
  PyJson.loads (PyJson.dumps (JDict pending_record)) = Some (JDict pending_record) /\
  result (write_status PyJson.dumps env_ok "j1" pending_record) empty_world = Returns tt /\
  read_status PyJson.loads "j1" pending_world
  = (Returns (JDict pending_record), pending_world).
Proof.
  assert (H1 : PyJson.loads (PyJson.dumps (JDict pending_record))
               = Some (JDict pending_record))
    by (vm_compute; reflexivity).
  assert (H2 : result (write_status PyJson.dumps env_ok "j1" pending_record) empty_world
               = Returns tt)
    by (vm_compute; reflexivity).
  split_and!; [exact H1 | exact H2 |].
  exact (proj2 (read_after_write PyJson.dumps PyJson.loads env_ok "j1" pending_record
                  empty_world H1 H2)).
Defined.


(** The empty record of [j1] is stored as the text [{}] and answered
    404. *)
Lemma status_query_falsy_record_witness :
  files empty_record_world !! status_path "j1" = Some "{}" /\
  PyJson.loads "{}" = Some (JDict []) /\
  truthy (JDict []) = false /\
  get_upload_status PyJson.loads "j1" empty_record_world
  = (Returns not_found_response, empty_record_world).
Proof.
  assert (H1 : files empty_record_world !! status_path "j1" = Some "{}")
    by (vm_compute; reflexivity).
  assert (H2 : PyJson.loads "{}" = Some (JDict [])) by (vm_compute; reflexivity).
  assert (H3 : truthy (JDict []) = false) by reflexivity.
  split_and!; [exact H1 | exact H2 | exact H3 |].
  exact (status_query_falsy_record PyJson.loads "j1" "{}" (JDict []) empty_record_world
           H1 H2 H3).
Defined.

(** * Further properties on concrete runs *)


(** Two ids of different kinds can share a record file. *)
Example status_path_collision :
  status_path "/tmp/upload_statuses/j1" = status_path "j1".
Proof. reflexivity. Qed.

Lemma write_status_isolated_witness :
  has_slash "j2" = false /\ has_slash "j1" = false /\ "j2" <> "j1" /\
  result (read_status PyJson.loads "j1")
         (final (write_status PyJson.dumps env_ok "j2" failed_record) pending_world)
  = Returns (JDict pending_record).
Proof.
  assert (H0 : has_slash "j2" = false) by reflexivity.
  assert (H1 : has_slash "j1" = false) by reflexivity.
  assert (H2 : "j2" <> "j1") by discriminate.
  split_and!; [exact H0 | exact H1 | exact H2 |].
  rewrite (write_status_isolated PyJson.dumps PyJson.loads env_ok "j2" "j1"
             failed_record pending_world H0 H1 H2).
  vm_compute. reflexivity.
Defined.

Lemma worker_frame_witness :
  status_path "j2" <> status_path "j1" /\ status_path "j2" <> "/tmp/j1-a.bin" /\
  result (read_status PyJson.loads "j2") (final worker_ok staged_world)
  = result (read_status PyJson.loads "j2") staged_world.
Proof.
  assert (H1 : status_path "j2" <> status_path "j1") by discriminate.
  assert (H2 : status_path "j2" <> "/tmp/j1-a.bin") by discriminate.
  split_and!; [exact H1 | exact H2 |].
  exact (proj2 (proj2 (worker_frame PyJson.dumps PyJson.loads env_ok
                         "j1" "/tmp/j1-a.bin" staged_world)) "j2" H1 H2).
Defined.

Lemma worker_outcome_witness :
  result worker_writes_raise staged_world
  = Raises (Exception "PermissionError: [Errno 13]") /\
  (In (EvRemove "/tmp/j1-a.bin" false) (new_events worker_writes_raise staged_world) \/
   last_write (new_events worker_writes_raise staged_world) = Some (failed_record, false)) /\
  result worker_remove_raises staged_world
  = Raises (Exception "PermissionError: [Errno 13] Permission denied") /\
  (In (EvRemove "/tmp/j1-a.bin" false) (new_events worker_remove_raises staged_world) \/
   last_write (new_events worker_remove_raises staged_world) = Some (failed_record, false)).
Proof.
  assert (H : result worker_writes_raise staged_world
              = Raises (Exception "PermissionError: [Errno 13]"))
    by (vm_compute; reflexivity).
  assert (H' : result worker_remove_raises staged_world
               = Raises (Exception "PermissionError: [Errno 13] Permission denied"))
    by (vm_compute; reflexivity).
  split_and!; [exact H | | exact H' |].
  - exact (proj2 (worker_outcome PyJson.dumps env_writes_raise "j1" "/tmp/j1-a.bin"
                    staged_world) _ H).
  - exact (proj2 (worker_outcome PyJson.dumps env_remove_raises "j1" "/tmp/j1-a.bin"
                    staged_world) _ H').
Defined.

Lemma completed_unwritten_witness :
  In (EvStatusWrite "j1" (completed_record sample_payload) false)
     (new_events worker_second_write_raises staged_world) /\
  status_calls (new_events worker_second_write_raises staged_world)
  = [("j1", processing_record); ("j1", completed_record sample_payload);
     ("j1", failed_record)].
Proof.
  assert (H : In (EvStatusWrite "j1" (completed_record sample_payload) false)
                 (new_events worker_second_write_raises staged_world))
    by (vm_compute; auto).
  split; [exact H|].
  exact (proj1 (proj2 (completed_unwritten_reads_failed PyJson.dumps
                         env_second_write_raises "j1" "/tmp/j1-a.bin" staged_world
                         sample_payload H))).
Defined.

Lemma worker_last_write_stored_witness :
  last_write (new_events worker_ok staged_world)
  = Some (completed_record sample_payload, true) /\
  files (final worker_ok staged_world) !! status_path "j1"
  = Some (PyJson.dumps (JDict (completed_record sample_payload))).
Proof.
  assert (H : last_write (new_events worker_ok staged_world)
              = Some (completed_record sample_payload, true))
    by (vm_compute; reflexivity).
  split; [exact H|].
  exact (proj2 (worker_last_write_stored PyJson.dumps env_ok "j1"
                  (Upload (Some "a.bin") "bytes") staged_world _) H).
Defined.

Lemma accepted_upload_witness :
  tasks empty_world = [] /\
  result upload_ok empty_world
  = Returns (Response (JDict [("file_id", JStr "job-0")]) 202) /\
  all_writes_returned
    (new_events (run_background_task PyJson.dumps env_ok) (final upload_ok empty_world))
  = true /\
  ~ In (EvRemove "/tmp/job-0-a.bin" false)
       (new_events (run_background_task PyJson.dumps env_ok) (final upload_ok empty_world)) /\
  exists d,
    terminal d = true /\
    files processed_world !! status_path "job-0" = Some (PyJson.dumps (JDict d)) /\
    files processed_world !! "/tmp/job-0-a.bin" = None.
Proof.
  assert (H1 : tasks empty_world = []) by reflexivity.
  assert (H2 : result upload_ok empty_world
               = Returns (Response (JDict [("file_id", JStr "job-0")]) 202))
    by (vm_compute; reflexivity).
  assert (H3 : all_writes_returned
                 (new_events (run_background_task PyJson.dumps env_ok)
                             (final upload_ok empty_world)) = true)
    by (vm_compute; reflexivity).
  assert (H4 : ~ In (EvRemove "/tmp/job-0-a.bin" false)
                 (new_events (run_background_task PyJson.dumps env_ok)
                             (final upload_ok empty_world)))
    by (vm_compute; intros H; absurd_in H).
  split_and!; [exact H1 | exact H2 | exact H3 | exact H4 |].
  destruct (accepted_upload_reaches_terminal PyJson.dumps PyJson.loads env_ok
              sample_upload empty_world _ H1 H2 H3)
    as (d & Hterm & _ & Hrec & Htmp & _).
  exists d. split_and!; [exact Hterm | exact Hrec | exact (Htmp H4)].
Defined.

Lemma status_query_corrupt_record_witness :
  files corrupt_world !! status_path "j1" = Some "{" /\
  PyJson.loads "{" = None /\
  result (serve (get_upload_status PyJson.loads "j1")) corrupt_world
  = Returns internal_error_response.
Proof.
  assert (H1 : files corrupt_world !! status_path "j1" = Some "{")
    by (vm_compute; reflexivity).
  assert (H2 : PyJson.loads "{" = None) by (vm_compute; reflexivity).
  split_and!; [exact H1 | exact H2 |].
  exact (proj2 (status_query_corrupt_record PyJson.loads "j1" "{" corrupt_world H1 H2)).
Defined.

Lemma pending_write_failure_witness :
  In (EvStatusWrite "job-0" pending_record false) (new_events upload_unwritten empty_world) /\
  result (serve upload_unwritten) empty_world = Returns internal_error_response /\
  files (final (serve upload_unwritten) empty_world) !! "/tmp/job-0-a.bin" = Some "bytes".
Proof.
  assert (H : In (EvStatusWrite "job-0" pending_record false)
                 (new_events upload_unwritten empty_world))
    by (vm_compute; auto 10).
  destruct (pending_write_failure PyJson.dumps env_first_write_raises
              sample_upload empty_world H) as (Hres & _ & Hfile).
  split_and!; [exact H | exact Hres | exact Hfile].
Defined.

Lemma other_routes_read_only_witness :
  is_upload (DeleteItem "42" None) = false /\
  files (final (serve (route PyJson.dumps PyJson.loads env_upload_raises
                         (DeleteItem "42" None))) staged_world)
  = files staged_world.
Proof.
  assert (H : is_upload (DeleteItem "42" None) = false) by reflexivity.
  split; [exact H|].
  exact (proj1 (other_routes_read_only PyJson.dumps PyJson.loads env_upload_raises
                  (DeleteItem "42" None) staged_world H)).
Defined.

Lemma proxy_routes_witness :
  get_status_call (Some EmptyString) = List_contents /\
  get_status env_ok (Some EmptyString) empty_world = list_files env_ok empty_world.
Proof.
  destruct (proxy_routes env_ok "magnet:?xt=urn:btih:0" (Some EmptyString) empty_world)
    as (_ & Hlist & Hget & Hcall).
  assert (H : get_status_call (Some EmptyString) = List_contents)
    by (apply Hcall; right; reflexivity).
  split; [exact H|]. rewrite Hget, Hlist, H. reflexivity.
Defined.

Lemma only_issued_ids_witness :
  reachable PyJson.dumps PyJson.loads env_ok uploaded_world /\
  In ("job-0", "/tmp/job-0-a.bin") (tasks uploaded_world) /\
  In (EvUuid "job-0") (log uploaded_world) /\
  "/tmp/job-0-a.bin" <> status_path "job-0".
Proof.
  assert (Hreach : reachable PyJson.dumps PyJson.loads env_ok uploaded_world).
  { apply (reachable_step _ _ _ empty_world uploaded_world).
    - apply reachable_initial. split; reflexivity.
    - apply step_request. }
  assert (Hin : In ("job-0", "/tmp/job-0-a.bin") (tasks uploaded_world))
    by (vm_compute; auto).
  destruct (proj2 (only_issued_ids PyJson.dumps PyJson.loads env_ok uploaded_world Hreach)
              _ _ Hin) as (Hid & _ & Hne).
  split_and!; [exact Hreach | exact Hin | exact Hid | exact Hne].
Defined.
